(** * rubrikcdm: object resolution and guarded state transitions

    A shallow embedding of [rubrikcdm/data_management.go].  Every exported
    method of the Go package talks to the Rubrik cluster through the
    [Get]/[Post]/[Patch] methods of its [*Credentials] receiver and reads the
    decoded JSON answers as values of type [interface{}].  The embedding keeps
    both: answers are dynamically typed [value]s, whose type assertions can
    panic, and every method runs in a small monad that threads the list of
    requests sent so far. *)

From Stdlib Require Import String List ZArith Bool Lia PrimFloat.
Import ListNotations.

Set Warnings "-register-all".

Open Scope list_scope.
Open Scope string_scope.

(** ** Dynamically typed values *)

(** What a Go [interface{}] holds in this package: [nil], a [bool], an [int]
    (untyped integer constants such as the [0] of [x == 0] convert to it), a
    [float64] (every JSON number decodes to one), a [string], a slice, or a
    [map[string]interface{}].  Maps are kept as association lists in key order
    of arrival; [index] reads the first binding. *)
Inductive value : Type :=
| VNil
| VBool (b : bool)
| VInt (n : Z)
| VFloat64 (f : float)
| VString (s : string)
| VSlice (l : list value)
| VMap (m : list (string * value)).

(** A Go [error]: [None] is the nil error. *)
Definition error : Type := option string.

(** [m[key]] on a [map[string]interface{}]: a missing key reads as [nil]. *)
Fixpoint index (m : list (string * value)) (key : string) : value :=
  match m with
  | [] => VNil
  | (k, v) :: rest => if String.eqb k key then v else index rest key
  end.

(** [x == 0] where [x] is an [interface{}]: the constant becomes an [int], and
    two interface values are equal only when their dynamic types agree. *)
Definition iface_eq_int (x : value) (n : Z) : bool :=
  match x with
  | VInt k => Z.eqb k n
  | _ => false
  end.

(** ** Requests and the transport *)

Inductive Method : Type := GET | POST | PATCH.

(** One call on the transport.  [config] is the request body ([VNil] for a
    GET) and [timeout] the variadic [timeout ...int] argument as passed. *)
Record Request : Type := mkRequest {
  method : Method;
  apiVersion : string;
  apiEndpoint : string;
  config : value;
  timeout : list Z
}.

(** The receiver of every method.  The cluster behind it is seen only through
    its answers: [remote c sent r] is the decoded body and the error the
    cluster returns to request [r] after the requests [sent] (oldest first). *)
Record Credentials : Type := mkCredentials {
  remote : list Request -> Request -> value * error
}.

(** A request changes the cluster when it is not a GET. *)
Definition mutating (r : Request) : bool :=
  match method r with
  | GET => false
  | POST | PATCH => true
  end.

(** ** The monad of a method body *)

Inductive panic : Type :=
| InterfaceConversion   (* a failed type assertion x.(T) *)
| IndexOutOfRange.      (* s[i] with i >= len(s) *)

Inductive outcome (A : Type) : Type :=
| Returned (a : A)
| Panicked (p : panic).
Arguments Returned {A} a.
Arguments Panicked {A} p.

(** A computation reads the requests sent so far and returns how it ended
    together with the extended list. *)
Definition Go (A : Type) : Type := list Request -> outcome A * list Request.

Definition ret {A : Type} (a : A) : Go A := fun sent => (Returned a, sent).

Definition throw {A : Type} (p : panic) : Go A := fun sent => (Panicked p, sent).

Definition bind {A B : Type} (m : Go A) (k : A -> Go B) : Go B :=
  fun sent =>
    match m sent with
    | (Returned a, sent') => k a sent'
    | (Panicked p, sent') => (Panicked p, sent')
    end.

Declare Scope go_scope.
Delimit Scope go_scope with go.
Notation "x <- m ;; k" := (bind m (fun x => k))
  (at level 61, m at next level, right associativity) : go_scope.
Notation "' pat <- m ;; k" := (bind m (fun x => match x with pat => k end))
  (at level 61, pat pattern, m at next level, right associativity) : go_scope.
Open Scope go_scope.

(** The requests a computation adds when started after [sent]. *)
Definition result {A : Type} (m : Go A) (sent : list Request) : outcome A :=
  fst (m sent).

Definition trace {A : Type} (m : Go A) (sent : list Request) : list Request :=
  snd (m sent).

(** *** Type assertions and indexing *)

Definition as_map (x : value) : Go (list (string * value)) :=
  match x with
  | VMap m => ret m
  | _ => throw InterfaceConversion
  end.

Definition as_slice (x : value) : Go (list value) :=
  match x with
  | VSlice l => ret l
  | _ => throw InterfaceConversion
  end.

Definition as_string (x : value) : Go string :=
  match x with
  | VString s => ret s
  | _ => throw InterfaceConversion
  end.

Definition as_float64 (x : value) : Go float :=
  match x with
  | VFloat64 f => ret f
  | _ => throw InterfaceConversion
  end.

Definition as_bool (x : value) : Go bool :=
  match x with
  | VBool b => ret b
  | _ => throw InterfaceConversion
  end.

(** [s[0]] *)
Definition first (l : list value) : Go value :=
  match l with
  | x :: _ => ret x
  | [] => throw IndexOutOfRange
  end.

(** ** The transport methods *)

Definition send (c : Credentials) (r : Request) : Go (value * error) :=
  fun sent => (Returned (remote c sent r), (sent ++ [r])%list).

(** Modelled from the spec: the transport collaborator's
    [Get(apiVersion, path, timeout?) -> (decoded JSON, error)]; its source is
    not part of the excerpt. *)
Definition Get (c : Credentials) (version endpoint : string) (tmo : list Z)
  : Go (value * error) :=
  send c (mkRequest GET version endpoint VNil tmo).

(** Modelled from the spec: the transport collaborator's
    [Post(apiVersion, path, body, timeout?) -> (decoded JSON, error)]. *)
Definition Post (c : Credentials) (version endpoint : string) (body : value)
  (tmo : list Z) : Go (value * error) :=
  send c (mkRequest POST version endpoint body tmo).

(** Modelled from the spec: the transport collaborator's
    [Patch(apiVersion, path, body, timeout?) -> (decoded JSON, error)]. *)
Definition Patch (c : Credentials) (version endpoint : string) (body : value)
  (tmo : list Z) : Go (value * error) :=
  send c (mkRequest PATCH version endpoint body tmo).

(** Modelled from the spec: the package helper [httpTimeout(timeout []int) int],
    whose source is not part of the excerpt.  The timeout is an optional
    per-call override that defaults to a base value; the base value is the
    [15] the operations below test for. *)
Definition httpTimeout (tmo : list Z) : Z :=
  match tmo with
  | [] => 15
  | t :: _ => t
  end.

(** ** ObjectID *)

(** [map[string]bool] literals; a missing key reads as [false]. *)
Fixpoint lookup_bool (m : list (string * bool)) (key : string) : bool :=
  match m with
  | [] => false
  | (k, b) :: rest => if String.eqb k key then b else lookup_bool rest key
  end.

Definition validObjectType : list (string * bool) :=
  [("vmware", true); ("sla", true); ("vmwareHost", true);
   ("physicalHost", true); ("filesetTemplate", true); ("managedVolume", true)].

Definition msgObjectType : string :=
  "The 'objectType' must be 'vmware', 'sla', 'vmwareHost', 'physicalHost', 'filesetTemplate', or 'managedVolume'".

Definition msgHostOS : string :=
  "The hostOS must be either 'Linux' or 'Windows'".

Definition msgNoHostOS : string :=
  "You must provide the Fileset Tempalte OS type".

Definition msgNotFound (objectType objectName : string) : string :=
  "The " ++ objectType ++ " object '" ++ objectName
    ++ "' was not found on the Rubrik cluster".

Definition msgMultiple (objectType objectName : string) : string :=
  "Multiple " ++ objectType ++ " objects named '" ++ objectName
    ++ "' were found on the Rubrik cluster. Unable to return a specific object id".

(** The [switch objectType] of [ObjectID]: the pair
    [(objectSummaryAPIVersion, objectSummaryAPIEndpoint)], or the error of the
    early return inside the [filesetTemplate] case.  When no case applies both
    variables keep their zero value. *)
Definition objectSummaryAPI (objectName objectType : string)
  (hostOS : list string) : string + (string * string) :=
  if String.eqb objectType "vmware" then
    inr ("v1", "/vmware/vm?primary_cluster_id=local&is_relic=false&name=" ++ objectName)
  else if String.eqb objectType "sla" then
    inr ("v1", "/sla_domain?primary_cluster_id=local&name=" ++ objectName)
  else if String.eqb objectType "vmwareHost" then
    inr ("v1", "/vmware/host?primary_cluster_id=local")
  else if String.eqb objectType "physicalHost" then
    inr ("v1", "/host?primary_cluster_id=local&hostname=" ++ objectName)
  else if String.eqb objectType "filesetTemplate" then
    match hostOS with
    | hostOperatingSystem :: _ =>
        if String.eqb hostOperatingSystem "Linux"
           || String.eqb hostOperatingSystem "Windows"
        then inr ("v1", "/fileset_template?primary_cluster_id=local&operating_system_type="
                          ++ hostOperatingSystem ++ "&name=" ++ objectName)
        else inl msgHostOS
    | [] => inl msgNoHostOS
    end
  else if String.eqb objectType "managedVolume" then
    inr ("internal", "/managed_volume?is_relic=false&primary_cluster_id=local&name=" ++ objectName)
  else inr ("", "").

(** The [for _, v := range data] loop: the ids of the entries whose
    [nameValue] field is [objectName], appended to [objectIDs] in order. *)
Fixpoint collectIDs (nameValue objectName : string) (data : list value)
  (objectIDs : list string) : Go (list string) :=
  match data with
  | [] => ret objectIDs
  | v :: rest =>
      entry <- as_map v ;;
      name <- as_string (index entry nameValue) ;;
      if String.eqb name objectName then
        entry' <- as_map v ;;
        id <- as_string (index entry' "id") ;;
        collectIDs nameValue objectName rest (objectIDs ++ [id])%list
      else collectIDs nameValue objectName rest objectIDs
  end.

Definition ObjectID (c : Credentials) (objectName objectType : string)
  (hostOS : list string) : Go (string * error) :=
  if Bool.eqb (lookup_bool validObjectType objectType) false then
    ret ("", Some msgObjectType)
  else
    match objectSummaryAPI objectName objectType hostOS with
    | inl e => ret ("", Some e)
    | inr (objectSummaryAPIVersion, objectSummaryAPIEndpoint) =>
        '(apiRequest, err) <- Get c objectSummaryAPIVersion objectSummaryAPIEndpoint [] ;;
        match err with
        | Some e => ret ("", Some e)
        | None =>
            answer <- as_map apiRequest ;;
            if iface_eq_int (index answer "total") 0 then
              ret ("", Some (msgNotFound objectType objectName))
            else
              total <- as_float64 (index answer "total") ;;
              if PrimFloat.ltb 0%float total then
                let nameValue :=
                  if String.eqb objectType "physicalHost" then "hostname" else "name" in
                data <- as_slice (index answer "data") ;;
                objectIDs <- collectIDs nameValue objectName data [] ;;
                if Nat.ltb 1 (length objectIDs) then
                  ret ("", Some (msgMultiple objectType objectName))
                else
                  match objectIDs with
                  | [] => ret ("", Some (msgNotFound objectType objectName))
                  | id :: _ => ret (id, None)
                  end
              else ret ("", Some (msgNotFound objectType objectName))
        end
    end.

(** ** The state-changing operations *)

(** [validObjectType] of the operations that only support vSphere VMs. *)
Definition validObjectTypeVM : list (string * bool) := [("vmware", true)].

Definition validHostOs : list (string * bool) :=
  [("Linux", true); ("Windows", true)].

Definition msgMustBeVmware : string := "The 'objectType' must be 'vmware'".

Definition msgHostOSPhysical : string :=
  "The 'hostOS' must be 'Linux' or 'Windows".

Definition msgAlreadyAssigned (objectName slaName : string) : string :=
  "No change required. The vSphere VM '" ++ objectName
    ++ "' is already assigned to the '" ++ slaName ++ "' SLA Domain.".

Definition msgAlreadyWritable (name : string) : string :=
  "No change required. The Managed Volume '" ++ name
    ++ "' is already in a writeable state.".

Definition msgAlreadyReadOnly (name : string) : string :=
  "No change required. The Managed Volume '" ++ name
    ++ "' is already in a read-only state.".

Definition msgAlreadyPaused (objectName objectType : string) : string :=
  "No change required. The '" ++ objectName ++ "' '" ++ objectType
    ++ "' is already paused.".

Definition msgNotPaused (objectName objectType : string) : string :=
  "No change required. The '" ++ objectName ++ "' '" ++ objectType
    ++ "' is currently not paused.".

Definition msgNotAssigned (hostName fileset : string) : string :=
  "The Physical Host '" ++ hostName ++ "' is not assigned to the '"
    ++ fileset ++ "' Fileset".

(** [AssignSLA].  [slaID] is declared before the [switch slaName]; the
    [default] case declares a second [slaID] with [:=], so the resolved
    identifier stays local to that case and the outer variable keeps its zero
    value. *)
Definition AssignSLA (c : Credentials) (objectName objectType slaName : string)
  (tmo : list Z) : Go (value * error) :=
  let httpTimeout := httpTimeout tmo in
  if Bool.eqb (lookup_bool validObjectTypeVM objectType) false then
    ret (VNil, Some msgMustBeVmware)
  else
    let assign (slaID : string) : Go (value * error) :=
      let post (config : list (string * value)) : Go (value * error) :=
        '(apiRequest, err) <-
           Post c "internal" ("/sla_domain/" ++ slaID ++ "/assign") (VMap config)
             [httpTimeout] ;;
        match err with
        | Some e => ret (VNil, Some e)
        | None => ret (apiRequest, None)
        end in
      if String.eqb objectType "vmware" then
        '(vmID, err) <- ObjectID c objectName "vmware" [] ;;
        match err with
        | Some e => ret (VNil, Some e)
        | None =>
            '(vmSummary, err) <- Get c "v1" ("/vmware/vm/" ++ vmID) [httpTimeout] ;;
            match err with
            | Some e => ret (VNil, Some e)
            | None =>
                summary <- as_map vmSummary ;;
                currentSLAID <-
                  (if String.eqb slaID "INHERIT"
                   then as_string (index summary "configuredSlaDomainId")
                   else as_string (index summary "effectiveSlaDomainId")) ;;
                if String.eqb slaID currentSLAID then
                  ret (VString (msgAlreadyAssigned objectName slaName), None)
                else post [("managedIds", VSlice [VString vmID])]
            end
        end
      else post [] in
    if String.eqb slaName "do not protect" then assign "UNPROTECTED"
    else if String.eqb slaName "clear" then assign "INHERIT"
    else
      '(slaID', err) <- ObjectID c slaName "sla" [] ;;
      match err with
      | Some e => ret (VNil, Some e)
      | None => assign ""
      end.

Definition BeginManagedVolumeSnapshot (c : Credentials) (name : string)
  (tmo : list Z) : Go (value * error) :=
  let httpTimeout := httpTimeout tmo in
  '(managedVolumeID, err) <- ObjectID c name "managedVolume" [] ;;
  match err with
  | Some e => ret (VNil, Some e)
  | None =>
      '(managedVolumeSummary, err) <-
         Get c "internal" ("/managed_volume/" ++ managedVolumeID) [httpTimeout] ;;
      match err with
      | Some e => ret (VNil, Some e)
      | None =>
          summary <- as_map managedVolumeSummary ;;
          isWritable <- as_bool (index summary "isWritable") ;;
          if isWritable then ret (VString (msgAlreadyWritable name), None)
          else
            '(apiRequest, err) <-
               Post c "internal"
                 ("/managed_volume/" ++ managedVolumeID ++ "/begin_snapshot")
                 (VMap []) [httpTimeout] ;;
            match err with
            | Some e => ret (VNil, Some e)
            | None => ret (apiRequest, None)
            end
      end
  end.

(** [EndManagedVolumeSnapshot].  The error of the final [Post] is assigned to
    [err] and never read: the method ends with [return apiRequest, nil]. *)
Definition EndManagedVolumeSnapshot (c : Credentials) (name slaName : string)
  (tmo : list Z) : Go (value * error) :=
  let httpTimeout := httpTimeout tmo in
  '(managedVolumeID, err) <- ObjectID c name "managedVolume" [] ;;
  match err with
  | Some e => ret (VNil, Some e)
  | None =>
      '(managedVolumeSummary, err) <-
         Get c "internal" ("/managed_volume/" ++ managedVolumeID) [httpTimeout] ;;
      match err with
      | Some e => ret (VNil, Some e)
      | None =>
          summary <- as_map managedVolumeSummary ;;
          isWritable <- as_bool (index summary "isWritable") ;;
          if Bool.eqb isWritable false then
            ret (VString (msgAlreadyReadOnly name), None)
          else
            let post (config : list (string * value)) : Go (value * error) :=
              '(apiRequest, err) <-
                 Post c "internal"
                   ("/managed_volume/" ++ managedVolumeID ++ "/end_snapshot")
                   (VMap config) [httpTimeout] ;;
              ret (apiRequest, None) in
            if String.eqb slaName "current" then post []
            else
              '(slaID, err) <- ObjectID c slaName "sla" [] ;;
              match err with
              | Some e => ret (VNil, Some e)
              | None =>
                  post [("retentionConfig", VMap [("slaId", VString slaID)])]
              end
      end
  end.

(** The timeout of the four snapshot operations:
    [if httpTimeout == 15 { httpTimeout = 180 }]. *)
Definition snapshotTimeout (tmo : list Z) : Z :=
  let httpTimeout := httpTimeout tmo in
  if Z.eqb httpTimeout 15 then 180 else httpTimeout.

(** [vmSummary["blackoutWindowStatus"]["isSnappableBlackoutActive"].(bool)] *)
Definition isSnappableBlackoutActive (vmSummary : value) : Go bool :=
  summary <- as_map vmSummary ;;
  status <- as_map (index summary "blackoutWindowStatus") ;;
  as_bool (index status "isSnappableBlackoutActive").

Definition PauseSnapshot (c : Credentials) (objectName objectType : string)
  (tmo : list Z) : Go (value * error) :=
  let httpTimeout := snapshotTimeout tmo in
  if Bool.eqb (lookup_bool validObjectTypeVM objectType) false then
    ret (VNil, Some msgMustBeVmware)
  else if String.eqb objectType "vmware" then
    '(vmID, err) <- ObjectID c objectName "vmware" [] ;;
    match err with
    | Some e => ret (VNil, Some e)
    | None =>
        '(vmSummary, err) <- Get c "v1" ("/vmware/vm/" ++ vmID) [httpTimeout] ;;
        match err with
        | Some e => ret (VNil, Some e)
        | None =>
            active <- isSnappableBlackoutActive vmSummary ;;
            if active then
              ret (VString (msgAlreadyPaused objectName objectType), None)
            else
              '(apiRequest, err) <-
                 Patch c "v1" ("/vmware/vm/" ++ vmID)
                   (VMap [("isVmPaused", VBool true)]) [httpTimeout] ;;
              match err with
              | Some e => ret (VNil, Some e)
              | None => ret (apiRequest, None)
              end
        end
    end
  else ret (VString "", None).

Definition ResumeSnapshot (c : Credentials) (objectName objectType : string)
  (tmo : list Z) : Go (value * error) :=
  let httpTimeout := snapshotTimeout tmo in
  if Bool.eqb (lookup_bool validObjectTypeVM objectType) false then
    ret (VNil, Some msgMustBeVmware)
  else if String.eqb objectType "vmware" then
    '(vmID, err) <- ObjectID c objectName "vmware" [] ;;
    match err with
    | Some e => ret (VNil, Some e)
    | None =>
        '(vmSummary, err) <- Get c "v1" ("/vmware/vm/" ++ vmID) [httpTimeout] ;;
        match err with
        | Some e => ret (VNil, Some e)
        | None =>
            active <- isSnappableBlackoutActive vmSummary ;;
            if Bool.eqb active false then
              ret (VString (msgNotPaused objectName objectType), None)
            else
              '(apiRequest, err) <-
                 Patch c "v1" ("/vmware/vm/" ++ vmID)
                   (VMap [("isVmPaused", VBool false)]) [httpTimeout] ;;
              match err with
              | Some e => ret (VNil, Some e)
              | None => ret (apiRequest, None)
              end
        end
    end
  else ret (VString "", None).

(** [apiRequest["links"][0]["href"].(string)] *)
Definition firstLinkHref (apiRequest : value) : Go string :=
  answer <- as_map apiRequest ;;
  links <- as_slice (index answer "links") ;;
  link <- first links ;;
  fields <- as_map link ;;
  as_string (index fields "href").

(** [OnDemandSnapshotVM].  [slaID] is an [interface{}]: the ["current"] case
    stores the VM summary in it, the [default] case the identifier string
    that [ObjectID] returns; both are then read as a map. *)
Definition OnDemandSnapshotVM (c : Credentials)
  (objectName objectType slaName : string) (tmo : list Z) : Go (string * error) :=
  let httpTimeout := snapshotTimeout tmo in
  if Bool.eqb (lookup_bool validObjectTypeVM objectType) false then
    ret ("", Some msgMustBeVmware)
  else if String.eqb objectType "vmware" then
    '(vmID, err) <- ObjectID c objectName "vmware" [] ;;
    match err with
    | Some e => ret ("", Some e)
    | None =>
        let snapshot (slaID : value) : Go (string * error) :=
          fields <- as_map slaID ;;
          slaId <- as_string (index fields "effectiveSlaDomainId") ;;
          '(apiRequest, err) <-
             Post c "v1" ("/vmware/vm/" ++ vmID ++ "/snapshot")
               (VMap [("slaId", VString slaId)]) [httpTimeout] ;;
          match err with
          | Some e => ret ("", Some e)
          | None => href <- firstLinkHref apiRequest ;; ret (href, None)
          end in
        if String.eqb slaName "current" then
          '(slaID, err) <- Get c "v1" ("/vmware/vm/" ++ vmID) [] ;;
          match err with
          | Some e => ret ("", Some e)
          | None => snapshot slaID
          end
        else
          '(slaID, err) <- ObjectID c slaName "sla" [] ;;
          match err with
          | Some e => ret ("", Some e)
          | None => snapshot (VString slaID)
          end
    end
  else ret ("", None).

Definition OnDemandSnapshotPhysical (c : Credentials)
  (hostName slaName fileset hostOS : string) (tmo : list Z) : Go (string * error) :=
  let httpTimeout := snapshotTimeout tmo in
  if Bool.eqb (lookup_bool validHostOs hostOS) false then
    ret ("", Some msgHostOSPhysical)
  else
    '(hostID, err) <- ObjectID c hostName "physicalHost" [] ;;
    match err with
    | Some e => ret ("", Some e)
    | None =>
        '(filesetTemplateID, err) <- ObjectID c fileset "filesetTemplate" [hostOS] ;;
        match err with
        | Some e => ret ("", Some e)
        | None =>
            '(filesetSummary, err) <-
               Get c "v1"
                 ("/fileset?primary_cluster_id=local&host_id=" ++ hostID
                    ++ "&is_relic=false&template_id=" ++ filesetTemplateID) [] ;;
            match err with
            | Some e => ret ("", Some e)
            | None =>
                summary <- as_map filesetSummary ;;
                if iface_eq_int (index summary "total") 0 then
                  ret ("", Some (msgNotAssigned hostName fileset))
                else
                  data <- as_slice (index summary "data") ;;
                  entry <- first data ;;
                  fields <- as_map entry ;;
                  filesetID <- as_string (index fields "id") ;;
                  let snapshot (slaID : string) : Go (string * error) :=
                    '(apiRequeset, err) <-
                       Post c "v1" ("/fileset/" ++ filesetID ++ "/snapshot")
                         (VMap [("slaId", VString slaID)]) [httpTimeout] ;;
                    match err with
                    | Some e => ret ("", Some e)
                    | None => href <- firstLinkHref apiRequeset ;; ret (href, None)
                    end in
                  if String.eqb slaName "current" then
                    slaID <- as_string (index fields "effectiveSlaDomainId") ;;
                    snapshot slaID
                  else
                    '(slaID, err) <- ObjectID c slaName "sla" [] ;;
                    match err with
                    | Some e => ret ("", Some e)
                    | None => snapshot slaID
                    end
            end
        end
    end.

(** The requests a computation adds to those already sent. *)
Definition issued {A : Type} (m : Go A) (sent : list Request) : list Request :=
  skipn (length sent) (trace m sent).

(** * Vocabulary of the statements *)

(** ** Candidates of a list answer *)

(** The string stored under [key] in an entry of the answer, if any. *)
Definition fieldOf (key : string) (v : value) : option string :=
  match v with
  | VMap entry =>
      match index entry key with
      | VString s => Some s
      | _ => None
      end
  | _ => None
  end.

(** A candidate is an object with a string under [nameValue] and under "id". *)
Definition is_candidate (nameValue : string) (v : value) : bool :=
  match fieldOf nameValue v, fieldOf "id" v with
  | Some _, Some _ => true
  | _, _ => false
  end.

(** The candidate's name field equals [objectName] exactly. *)
Definition named (nameValue objectName : string) (v : value) : bool :=
  match fieldOf nameValue v with
  | Some s => String.eqb s objectName
  | None => false
  end.

Definition idOf (v : value) : string :=
  match fieldOf "id" v with
  | Some s => s
  | None => ""
  end.

(** The name field [ObjectID] compares: hostname for physical hosts. *)
Definition nameField (objectType : string) : string :=
  if String.eqb objectType "physicalHost" then "hostname" else "name".

(** ** What a computation sends *)

(** Every request [m] adds satisfies [P], however [m] ends. *)
Definition sends_only {A : Type} (P : Request -> Prop) (m : Go A) : Prop :=
  forall sent, exists more, snd (m sent) = (sent ++ more)%list /\ Forall P more.

(** A lookup: a GET sent without a timeout. *)
Definition lookup_request (r : Request) : Prop :=
  method r = GET /\ timeout r = [].

(** ** A table-driven cluster for concrete runs *)

Definition Method_eqb (a b : Method) : bool :=
  match a, b with
  | GET, GET | POST, POST | PATCH, PATCH => true
  | _, _ => false
  end.

(** The answer listed for the request's method and endpoint; an endpoint
    that is not listed answers with an error. *)
Fixpoint answerOf (table : list (Method * string * (value * error)))
  (r : Request) : value * error :=
  match table with
  | [] => (VNil, Some "404 Not Found")
  | (m, endpoint, answer) :: rest =>
      if Method_eqb m (method r) && String.eqb endpoint (apiEndpoint r)
      then answer
      else answerOf rest r
  end.

Definition stub (table : list (Method * string * (value * error))) : Credentials :=
  mkCredentials (fun _ r => answerOf table r).

(** A list answer of the cluster and one entry of it. *)
Definition page (total : float) (data : list value) : value :=
  VMap [("hasMore", VBool false); ("data", VSlice data); ("total", VFloat64 total)].

Definition entry (nameValue name id : string) : value :=
  VMap [("id", VString id); (nameValue, VString name)].

(** ** Usage errors of the resolver *)

Definition objectTypes : list string :=
  ["vmware"; "sla"; "vmwareHost"; "physicalHost"; "filesetTemplate"; "managedVolume"].

(** The calls the resolver rejects before it builds a query, with the
    message each gets. *)
Inductive UsageError : string -> list string -> string -> Prop :=
| UnknownObjectType objectType hostOS :
    ~ In objectType objectTypes ->
    UsageError objectType hostOS msgObjectType
| MissingHostOS :
    UsageError "filesetTemplate" [] msgNoHostOS
| UnknownHostOS os rest :
    os <> "Linux" -> os <> "Windows" ->
    UsageError "filesetTemplate" (os :: rest) msgHostOS.

(** Two hosts of which one carries the wanted hostname. *)
Definition twoHosts : list value :=
  [entry "hostname" "db01.example.com" "Host:::a1";
   entry "hostname" "db01" "Host:::b2"].

(** ** Guarded transitions *)

(** [op], started after [sent], is a guarded transition: when the remote flag
    is already in the target state it returns the message [noop] and sends no
    mutating request; otherwise [call] is the one mutating request it sends,
    it is the last request, and the body the cluster answers to it is what
    [op] returns. *)
Definition guarded_transition (c : Credentials) (op : Go (value * error))
  (sent : list Request) (inTargetState : bool) (noop : string) (call : Request)
  : Prop :=
  if inTargetState then
    result op sent = Returned (VString noop, None)
    /\ filter mutating (issued op sent) = []
  else
    exists before,
      trace op sent = (before ++ [call])%list
      /\ filter mutating (issued op sent) = [call]
      /\ forall body, remote c before call = (body, None) ->
                      result op sent = Returned (body, None).

(** [if err != nil { return nil, err }; return apiRequest, nil] *)
Definition checked (answer : value * error) : value * error :=
  match answer with
  | (_, Some e) => (VNil, Some e)
  | (apiRequest, None) => (apiRequest, None)
  end.

(** The retention override [EndManagedVolumeSnapshot] builds once the volume
    is known to be writable: none for "current", otherwise the identifier the
    SLA lookup after [sent2] resolves. *)
Inductive Retention (c : Credentials) (slaName : string) (sent2 : list Request)
  : list (string * value) -> Prop :=
| KeepCurrent :
    slaName = "current" -> Retention c slaName sent2 []
| OverrideSLA slaID sent3 :
    slaName <> "current" ->
    ObjectID c slaName "sla" [] sent2 = (Returned (slaID, None), sent3) ->
    Retention c slaName sent2
      [("retentionConfig", VMap [("slaId", VString slaID)])].

(** [return apiRequest, nil] *)
Definition unchecked (answer : value * error) : value * error :=
  (fst answer, None).

(** ** A small cluster *)

(** Two VMs, one SLA domain, one managed volume that is open for writes, and
    one physical host with a fileset template that is not assigned to it. *)
Definition vmSummaryOf (id effective configured : string) (paused : bool) : value :=
  VMap [("id", VString id);
        ("effectiveSlaDomainId", VString effective);
        ("configuredSlaDomainId", VString configured);
        ("blackoutWindowStatus",
         VMap [("isGlobalBlackoutActive", VBool false);
               ("isSnappableBlackoutActive", VBool paused)])].

Definition jobLinks (href : string) : value :=
  VMap [("id", VString "CREATE_SNAPSHOT_1");
        ("status", VString "QUEUED");
        ("links", VSlice [VMap [("href", VString href); ("rel", VString "self")]])].

Definition lab : Credentials :=
  stub
    [(GET, "/vmware/vm?primary_cluster_id=local&is_relic=false&name=web01",
      (page 1 [entry "name" "web01" "vm-1"], None));
     (GET, "/vmware/vm?primary_cluster_id=local&is_relic=false&name=web02",
      (page 1 [entry "name" "web02" "vm-2"], None));
     (GET, "/vmware/vm/vm-1", (vmSummaryOf "vm-1" "sla-gold" "sla-gold" false, None));
     (GET, "/vmware/vm/vm-2", (vmSummaryOf "vm-2" "sla-silver" "INHERIT" true, None));
     (PATCH, "/vmware/vm/vm-1", (vmSummaryOf "vm-1" "sla-gold" "sla-gold" true, None));
     (PATCH, "/vmware/vm/vm-2", (vmSummaryOf "vm-2" "sla-silver" "INHERIT" false, None));
     (POST, "/vmware/vm/vm-1/snapshot",
      (jobLinks "https://lab/api/v1/vmware/vm/request/CREATE_SNAPSHOT_1", None));
     (GET, "/sla_domain?primary_cluster_id=local&name=Gold",
      (page 1 [entry "name" "Gold" "sla-gold"], None));
     (POST, "/sla_domain/sla-gold/assign", (VMap [], None));
     (GET, "/managed_volume?is_relic=false&primary_cluster_id=local&name=oracle",
      (page 1 [entry "name" "oracle" "mv-9"], None));
     (GET, "/managed_volume/mv-9",
      (VMap [("id", VString "mv-9"); ("isWritable", VBool true)], None));
     (POST, "/managed_volume/mv-9/end_snapshot",
      (VNil, Some "500 Internal Server Error"));
     (GET, "/host?primary_cluster_id=local&hostname=db01",
      (page 1 [entry "hostname" "db01" "host-4"], None));
     (GET, "/fileset_template?primary_cluster_id=local&operating_system_type=Linux&name=etc",
      (page 1 [entry "name" "etc" "tmpl-3"], None));
     (GET, "/fileset?primary_cluster_id=local&host_id=host-4&is_relic=false&template_id=tmpl-3",
      (page 0 [], None))].

(** Method and endpoint of a request, for reading traces. *)
Definition route (r : Request) : Method * string := (method r, apiEndpoint r).

(** ** Timeouts *)

(** What the caller passes as [timeout ...int] and the value the operation
    then uses: 180 when nothing is passed, the first value passed when it is
    not 15, and 180 again when it is 15. *)
Inductive CallerTimeout : list Z -> Z -> Prop :=
| NoTimeout : CallerTimeout [] 180
| ExplicitTimeout t rest : t <> 15%Z -> CallerTimeout (t :: rest) t
| DefaultPassed rest : CallerTimeout (15%Z :: rest) 180.

(** A request respects the timeout [T]: a mutating request carries [T], and
    any request carries [T] or no timeout at all. *)
Definition carries (T : Z) (r : Request) : Prop :=
  (mutating r = true -> timeout r = [T])
  /\ (timeout r = [T] \/ timeout r = []).

(** [r] is the list query of [ObjectID objectName objectType hostOS]: the
    GET of the type's list endpoint, sent without a timeout. *)
Definition listQuery (objectName objectType : string) (hostOS : list string)
  (r : Request) : Prop :=
  exists version endpoint,
    objectSummaryAPI objectName objectType hostOS = inr (version, endpoint)
    /\ r = mkRequest GET version endpoint VNil [].

(** [r] is the GET of a VM summary that [OnDemandSnapshotVM] sends for the
    SLA name "current", without a timeout. *)
Definition vmSummaryQuery (r : Request) : Prop :=
  exists vmID, r = mkRequest GET "v1" ("/vmware/vm/" ++ vmID) VNil [].

(** [r] is the fileset query of [OnDemandSnapshotPhysical], sent without a
    timeout. *)
Definition filesetQuery (r : Request) : Prop :=
  exists hostID filesetTemplateID,
    r = mkRequest GET "v1"
          ("/fileset?primary_cluster_id=local&host_id=" ++ hostID
             ++ "&is_relic=false&template_id=" ++ filesetTemplateID) VNil [].

(** [r] is sent with the timeout [T], unless it is one of the requests
    [untimed]. *)
Definition uses_timeout (T : Z) (untimed : Request -> Prop) (r : Request) : Prop :=
  timeout r = [T] \/ untimed r.

(** * The rest of the package *)

(** ** GetSLAObjects *)

(** What [GetSLAObjects] returns as its [interface{}]: a plain value (nil or a
    message string) or the [map[interface{}]interface{}] from VM name to VM
    id, kept as an association list. *)
Inductive iface : Type :=
| Plain (v : value)
| NameIDMap (m : list (value * value)).

(** Assigning to a map with [interface{}] keys panics at run time when the
    key holds a slice or a map; [UnhashableKey] is that end of a call. *)
Inductive hashed (A : Type) : Type :=
| Hashed (a : A)
| UnhashableKey.
Arguments Hashed {A} a.
Arguments UnhashableKey {A}.

Definition hashable (key : value) : bool :=
  match key with
  | VSlice _ | VMap _ => false
  | _ => true
  end.

(** Equality of two map keys: the same dynamic type and equal values (for
    float64 the equality of the language, under which NaN differs from
    itself). *)
Definition key_eqb (a b : value) : bool :=
  match a, b with
  | VNil, VNil => true
  | VBool x, VBool y => Bool.eqb x y
  | VInt x, VInt y => Z.eqb x y
  | VFloat64 x, VFloat64 y => PrimFloat.eqb x y
  | VString x, VString y => String.eqb x y
  | _, _ => false
  end.

(** [m[key] = v]: the binding of an equal key is replaced, otherwise a
    binding is added. *)
Fixpoint assign (m : list (value * value)) (key v : value) : list (value * value) :=
  match m with
  | [] => [(key, v)]
  | (k, old) :: rest =>
      if key_eqb k key then (key, v) :: rest
      else (k, old) :: assign rest key v
  end.

(** [m[key]], with whether the key is bound. *)
Fixpoint bound (m : list (value * value)) (key : value) : option value :=
  match m with
  | [] => None
  | (k, v) :: rest => if key_eqb k key then Some v else bound rest key
  end.

Definition msgNotProtecting (slaName objectType : string) : string :=
  "The SLA '" ++ slaName ++ "' is currently not protecting any "
    ++ objectType ++ " objects.".

(** The loop [vmNameID[v["name"]] = v["id"]] over the data of the answer. *)
Fixpoint collectNameIDs (data : list value) (vmNameID : list (value * value))
  : Go (hashed (list (value * value))) :=
  match data with
  | [] => ret (Hashed vmNameID)
  | v :: rest =>
      entry <- as_map v ;;
      entry' <- as_map v ;;
      if hashable (index entry "name") then
        collectNameIDs rest (assign vmNameID (index entry "name") (index entry' "id"))
      else ret UnhashableKey
  end.

Definition GetSLAObjects (c : Credentials) (slaName objectType : string)
  (tmo : list Z) : Go (hashed (iface * error)) :=
  let httpTimeout := httpTimeout tmo in
  if Bool.eqb (lookup_bool validObjectTypeVM objectType) false then
    ret (Hashed (Plain VNil, Some msgMustBeVmware))
  else if String.eqb objectType "vmware" then
    '(slaID, err) <- ObjectID c slaName "sla" [] ;;
    match err with
    | Some e => ret (Hashed (Plain VNil, Some e))
    | None =>
        '(allVMinSLA, err) <-
           Get c "v1"
             ("/vmware/vm?effective_sla_domain_id=" ++ slaID ++ "&is_relic=false")
             [httpTimeout] ;;
        match err with
        | Some e => ret (Hashed (Plain VNil, Some e))
        | None =>
            answer <- as_map allVMinSLA ;;
            total <- as_float64 (index answer "total") ;;
            if PrimFloat.eqb total 0%float then
              ret (Hashed (Plain (VString (msgNotProtecting slaName objectType)), None))
            else
              answer' <- as_map allVMinSLA ;;
              data <- as_slice (index answer' "data") ;;
              vmNameID <- collectNameIDs data [] ;;
              match vmNameID with
              | Hashed m => ret (Hashed (NameIDMap m, None))
              | UnhashableKey => ret UnhashableKey
              end
        end
    end
  else ret (Hashed (Plain (VString ""), None)).

(** ** cluster.go *)

(** [cluster.go] is written against a [Get] whose result is the decoded
    object itself, indexed without a check; that method is not in the
    sources and is the parameter [get] here. *)
Section Cluster.

Variable get : string -> string -> Go (list (string * value)).

Definition ClusterVersion : Go value :=
  apiRequest <- get "v1" "/cluster/me" ;;
  ret (index apiRequest "version").

(** The loop [nodeList = append(nodeList, v["ipAddress"].(string))]. *)
Fixpoint appendNodeIPs (data : list value) (nodeList : list string)
  : Go (list string) :=
  match data with
  | [] => ret nodeList
  | v :: rest =>
      node <- as_map v ;;
      ipAddress <- as_string (index node "ipAddress") ;;
      appendNodeIPs rest (nodeList ++ [ipAddress])%list
  end.

Definition ClusterNodeIP : Go (list string) :=
  apiRequest <- get "internal" "/cluster/me/node" ;;
  data <- as_slice (index apiRequest "data") ;;
  appendNodeIPs data [].

End Cluster.

(** ** Calls of the package *)

(** One call of an exported method of [data_management.go]. *)
Inductive Call : Type :=
| CallObjectID (objectName objectType : string) (hostOS : list string)
| CallAssignSLA (objectName objectType slaName : string) (tmo : list Z)
| CallBeginManagedVolumeSnapshot (name : string) (tmo : list Z)
| CallEndManagedVolumeSnapshot (name slaName : string) (tmo : list Z)
| CallGetSLAObjects (slaName objectType : string) (tmo : list Z)
| CallPauseSnapshot (objectName objectType : string) (tmo : list Z)
| CallResumeSnapshot (objectName objectType : string) (tmo : list Z)
| CallOnDemandSnapshotVM (objectName objectType slaName : string) (tmo : list Z)
| CallOnDemandSnapshotPhysical (hostName slaName fileset hostOS : string)
    (tmo : list Z).

(** The error a method returned, [None] when it panicked instead. *)
Definition errorOf {A : Type} (o : outcome (A * error)) : option error :=
  match o with
  | Returned (_, err) => Some err
  | Panicked _ => None
  end.

Definition errorOfHashed {A : Type} (o : outcome (hashed (A * error)))
  : option error :=
  match o with
  | Returned (Hashed (_, err)) => Some err
  | Returned UnhashableKey | Panicked _ => None
  end.

(** The requests the call sends when started after [sent]. *)
Definition sentBy (c : Credentials) (call : Call) (sent : list Request)
  : list Request :=
  match call with
  | CallObjectID objectName objectType hostOS =>
      issued (ObjectID c objectName objectType hostOS) sent
  | CallAssignSLA objectName objectType slaName tmo =>
      issued (AssignSLA c objectName objectType slaName tmo) sent
  | CallBeginManagedVolumeSnapshot name tmo =>
      issued (BeginManagedVolumeSnapshot c name tmo) sent
  | CallEndManagedVolumeSnapshot name slaName tmo =>
      issued (EndManagedVolumeSnapshot c name slaName tmo) sent
  | CallGetSLAObjects slaName objectType tmo =>
      issued (GetSLAObjects c slaName objectType tmo) sent
  | CallPauseSnapshot objectName objectType tmo =>
      issued (PauseSnapshot c objectName objectType tmo) sent
  | CallResumeSnapshot objectName objectType tmo =>
      issued (ResumeSnapshot c objectName objectType tmo) sent
  | CallOnDemandSnapshotVM objectName objectType slaName tmo =>
      issued (OnDemandSnapshotVM c objectName objectType slaName tmo) sent
  | CallOnDemandSnapshotPhysical hostName slaName fileset hostOS tmo =>
      issued (OnDemandSnapshotPhysical c hostName slaName fileset hostOS tmo) sent
  end.

(** The error the call returns to its caller. *)
Definition returnedError (c : Credentials) (call : Call) (sent : list Request)
  : option error :=
  match call with
  | CallObjectID objectName objectType hostOS =>
      errorOf (result (ObjectID c objectName objectType hostOS) sent)
  | CallAssignSLA objectName objectType slaName tmo =>
      errorOf (result (AssignSLA c objectName objectType slaName tmo) sent)
  | CallBeginManagedVolumeSnapshot name tmo =>
      errorOf (result (BeginManagedVolumeSnapshot c name tmo) sent)
  | CallEndManagedVolumeSnapshot name slaName tmo =>
      errorOf (result (EndManagedVolumeSnapshot c name slaName tmo) sent)
  | CallGetSLAObjects slaName objectType tmo =>
      errorOfHashed (result (GetSLAObjects c slaName objectType tmo) sent)
  | CallPauseSnapshot objectName objectType tmo =>
      errorOf (result (PauseSnapshot c objectName objectType tmo) sent)
  | CallResumeSnapshot objectName objectType tmo =>
      errorOf (result (ResumeSnapshot c objectName objectType tmo) sent)
  | CallOnDemandSnapshotVM objectName objectType slaName tmo =>
      errorOf (result (OnDemandSnapshotVM c objectName objectType slaName tmo) sent)
  | CallOnDemandSnapshotPhysical hostName slaName fileset hostOS tmo =>
      errorOf
        (result (OnDemandSnapshotPhysical c hostName slaName fileset hostOS tmo) sent)
  end.

(** [EndManagedVolumeSnapshot] is the one method that does not read the
    error of its mutating request. *)
Definition checksMutation (call : Call) : bool :=
  match call with
  | CallEndManagedVolumeSnapshot _ _ _ => false
  | _ => true
  end.

(** The discipline of a call that started after [sent], sent [more] and
    returned the error [err]: a mutating request is the last request and the
    only mutating one; a request the cluster answered with an error is the
    last request, and that error is the one returned (for a mutating request
    only when [strict]). *)
Definition disciplined (c : Credentials) (strict : bool) (sent : list Request)
  (err : option error) (more : list Request) : Prop :=
  forall p r q, more = (p ++ r :: q)%list ->
    (mutating r = true -> q = [] /\ filter mutating p = [])
    /\ (forall e, snd (remote c (sent ++ p)%list r) = Some e ->
          q = []
          /\ (strict || negb (mutating r) = true -> err = Some (Some e))).

(** A computation that sends nothing. *)
Definition silent {A : Type} (m : Go A) : Prop :=
  forall sent, snd (m sent) = sent.

(** A computation that keeps the discipline, [proj] reading the error it
    returns. *)
Definition keeps {A : Type} (c : Credentials) (strict : bool)
  (proj : outcome A -> option error) (m : Go A) : Prop :=
  forall sent, exists more,
    snd (m sent) = (sent ++ more)%list
    /\ disciplined c strict sent (proj (fst (m sent))) more.

(** A step that only looks up: it sends no mutating request, and a request
    of it that the cluster answers with an error is its last one and makes
    it return that error. *)
Definition looks_up {X : Type} (c : Credentials) (m : Go (X * error)) : Prop :=
  forall sent, exists more,
    snd (m sent) = (sent ++ more)%list
    /\ filter mutating more = []
    /\ forall p r q e, more = (p ++ r :: q)%list ->
         snd (remote c (sent ++ p)%list r) = Some e ->
         q = [] /\ exists x, fst (m sent) = Returned (x, Some e).

(** The calls an operation rejects before it sends anything, with the
    message each gets: an objectType other than "vmware" where only vSphere
    VMs are supported, and a hostOS that is neither "Linux" nor "Windows". *)
Inductive Unsupported : Call -> string -> Prop :=
| UnsupportedAssignSLA objectName objectType slaName tmo :
    objectType <> "vmware" ->
    Unsupported (CallAssignSLA objectName objectType slaName tmo) msgMustBeVmware
| UnsupportedGetSLAObjects slaName objectType tmo :
    objectType <> "vmware" ->
    Unsupported (CallGetSLAObjects slaName objectType tmo) msgMustBeVmware
| UnsupportedPauseSnapshot objectName objectType tmo :
    objectType <> "vmware" ->
    Unsupported (CallPauseSnapshot objectName objectType tmo) msgMustBeVmware
| UnsupportedResumeSnapshot objectName objectType tmo :
    objectType <> "vmware" ->
    Unsupported (CallResumeSnapshot objectName objectType tmo) msgMustBeVmware
| UnsupportedOnDemandSnapshotVM objectName objectType slaName tmo :
    objectType <> "vmware" ->
    Unsupported (CallOnDemandSnapshotVM objectName objectType slaName tmo)
      msgMustBeVmware
| UnsupportedHostOS hostName slaName fileset hostOS tmo :
    hostOS <> "Linux" -> hostOS <> "Windows" ->
    Unsupported (CallOnDemandSnapshotPhysical hostName slaName fileset hostOS tmo)
      msgHostOSPhysical.

(** The id of the last entry of [data] that carries the name [name]. *)
Fixpoint lastNamed (data : list value) (name : string) : option value :=
  match data with
  | [] => None
  | v :: rest =>
      match lastNamed rest name with
      | Some id => Some id
      | None =>
          match v with
          | VMap entry =>
              match index entry "name" with
              | VString n => if String.eqb n name then Some (index entry "id") else None
              | _ => None
              end
          | _ => None
          end
      end
  end.

(** A name-to-id map whose keys are all strings. *)
Definition string_keys (m : list (value * value)) : Prop :=
  Forall (fun kv => exists s, fst kv = VString s) m.

(** A cluster where the SLA domain Gold protects three VMs, two of which
    carry the same name. *)
Definition goldVMs : list value :=
  [entry "name" "web01" "vm-1"; entry "name" "db01" "vm-7"; entry "name" "web01" "vm-9"].

Definition slaLab : Credentials :=
  stub
    [(GET, "/sla_domain?primary_cluster_id=local&name=Gold",
      (page 1 [entry "name" "Gold" "sla-gold"], None));
     (GET, "/sla_domain?primary_cluster_id=local&name=Idle",
      (page 1 [entry "name" "Idle" "sla-idle"], None));
     (GET, "/vmware/vm?effective_sla_domain_id=sla-gold&is_relic=false",
      (page 3 goldVMs, None));
     (GET, "/vmware/vm?effective_sla_domain_id=sla-idle&is_relic=false",
      (page 0 [], None))].

(** The SLA identifier [OnDemandSnapshotPhysical] sends for a fileset with
    the fields [fields], and the requests sent once it is known: the
    fileset's own effective SLA for "current", otherwise the identifier the
    SLA lookup after [sent2] resolves. *)
Inductive SnapshotSLA (c : Credentials) (slaName : string)
  (fields : list (string * value)) (sent2 : list Request)
  : string -> list Request -> Prop :=
| CurrentSLA slaID :
    slaName = "current" ->
    index fields "effectiveSlaDomainId" = VString slaID ->
    SnapshotSLA c slaName fields sent2 slaID sent2
| NamedSLA slaID sent3 :
    slaName <> "current" ->
    ObjectID c slaName "sla" [] sent2 = (Returned (slaID, None), sent3) ->
    SnapshotSLA c slaName fields sent2 slaID sent3.

(** A cluster where host db01 has two filesets of the template etc. *)
Definition filesetLab : Credentials :=
  stub
    [(GET, "/host?primary_cluster_id=local&hostname=db01",
      (page 1 [entry "hostname" "db01" "host-4"], None));
     (GET, "/fileset_template?primary_cluster_id=local&operating_system_type=Linux&name=etc",
      (page 1 [entry "name" "etc" "tmpl-3"], None));
     (GET, "/fileset?primary_cluster_id=local&host_id=host-4&is_relic=false&template_id=tmpl-3",
      (page 2
         [VMap [("id", VString "fs-1"); ("effectiveSlaDomainId", VString "sla-silver")];
          VMap [("id", VString "fs-2"); ("effectiveSlaDomainId", VString "sla-gold")]],
       None));
     (POST, "/fileset/fs-1/snapshot",
      (jobLinks "https://lab/api/v1/fileset/request/CREATE_FILESET_SNAPSHOT_1", None))].

(** What the caller passes as [timeout ...int] to a method that does not
    lengthen the default, and the value the method then uses. *)
Inductive PassedTimeout : list Z -> Z -> Prop :=
| DefaultTimeout : PassedTimeout [] 15
| GivenTimeout t rest : PassedTimeout (t :: rest) t.

(** The object a call resolves first and then operates on: its name and its
    type. *)
Definition objectOf (call : Call) : option (string * string) :=
  match call with
  | CallBeginManagedVolumeSnapshot name _ => Some (name, "managedVolume")
  | CallEndManagedVolumeSnapshot name _ _ => Some (name, "managedVolume")
  | CallPauseSnapshot objectName _ _ => Some (objectName, "vmware")
  | CallResumeSnapshot objectName _ _ => Some (objectName, "vmware")
  | CallOnDemandSnapshotVM objectName _ _ _ => Some (objectName, "vmware")
  | _ => None
  end.

(** Method and endpoint of the mutating request of such a call on the
    object with identifier [id]. *)
Definition mutationRoute (call : Call) (id : string) : Method * string :=
  match call with
  | CallBeginManagedVolumeSnapshot _ _ =>
      (POST, "/managed_volume/" ++ id ++ "/begin_snapshot")
  | CallEndManagedVolumeSnapshot _ _ _ =>
      (POST, "/managed_volume/" ++ id ++ "/end_snapshot")
  | CallPauseSnapshot _ _ _ | CallResumeSnapshot _ _ _ =>
      (PATCH, "/vmware/vm/" ++ id)
  | CallOnDemandSnapshotVM _ _ _ _ =>
      (POST, "/vmware/vm/" ++ id ++ "/snapshot")
  | _ => (GET, "")
  end.

(** A transport of [cluster.go] that answers every endpoint with the same
    object and records nothing. *)
Definition fixedGet (answer : list (string * value))
  : string -> string -> Go (list (string * value)) :=
  fun _ _ => ret answer.

(** The answers to its list query that [ObjectID] cannot read: a body that
    is not an object, a total that is neither the int 0 nor a float64, and a
    positive total without a slice under "data". *)
Inductive MalformedAnswer : value -> Prop :=
| NotAnObject body :
    (forall answer, body <> VMap answer) -> MalformedAnswer body
| NoTotal answer :
    index answer "total" <> VInt 0 ->
    (forall total, index answer "total" <> VFloat64 total) ->
    MalformedAnswer (VMap answer)
| NoData answer total :
    index answer "total" = VFloat64 total ->
    PrimFloat.ltb 0 total = true ->
    (forall data, index answer "data" <> VSlice data) ->
    MalformedAnswer (VMap answer).

(** * Proofs *)

(** ** Reasoning about computations *)

Lemma bind_returned {A B : Type} (m : Go A) (k : A -> Go B) sent a sent' :
  m sent = (Returned a, sent') -> bind m k sent = k a sent'.
Proof. intros H. unfold bind. rewrite H. reflexivity. Qed.

Lemma bind_send {B : Type} c r (k : value * error -> Go B) sent :
  bind (send c r) k sent = k (remote c sent r) (sent ++ [r])%list.
Proof. reflexivity. Qed.

Lemma skipn_app_exact {A : Type} (l l' : list A) :
  skipn (length l) (l ++ l')%list = l'.
Proof. induction l as [|x l IH]; simpl; auto. Qed.

Lemma string_eqb_false (s t : string) : s <> t -> String.eqb s t = false.
Proof. intros H. apply String.eqb_neq. exact H. Qed.

(** *** The resolver's loop *)

Lemma collectIDs_candidates nameValue objectName data :
  Forall (fun v => is_candidate nameValue v = true) data ->
  forall objectIDs sent,
    collectIDs nameValue objectName data objectIDs sent =
    (Returned (objectIDs ++ map idOf (filter (named nameValue objectName) data))%list,
     sent).
Proof.
  induction 1 as [|v data Hv _ IH]; intros objectIDs sent.
  - simpl. rewrite app_nil_r. reflexivity.
  - unfold is_candidate, fieldOf in Hv.
    destruct v as [| | | | |l|entry]; try discriminate.
    destruct (index entry nameValue) as [| | | |name| |] eqn:Hname; try discriminate.
    destruct (index entry "id") as [| | | |id| |] eqn:Hid; try discriminate.
    cbn [collectIDs filter].
    unfold named at 1, fieldOf at 1. rewrite Hname.
    unfold bind at 1, as_map at 1, ret at 1.
    rewrite Hname. unfold bind at 1, as_string at 1, ret at 1.
    destruct (String.eqb name objectName).
    + unfold bind at 1, as_map at 1, ret at 1.
      rewrite Hid. unfold bind at 1, as_string at 1, ret at 1.
      rewrite IH. cbn [map]. unfold idOf at 2, fieldOf. rewrite Hid.
      rewrite <- app_assoc. reflexivity.
    + apply IH.
Qed.

(** *** What a computation sends *)

Lemma sends_only_ret {A : Type} P (a : A) : sends_only P (ret a).
Proof. intros sent. exists []. rewrite app_nil_r. split; [reflexivity|constructor]. Qed.

Lemma sends_only_throw {A : Type} P p : sends_only P (@throw A p).
Proof. intros sent. exists []. rewrite app_nil_r. split; [reflexivity|constructor]. Qed.

Lemma sends_only_send P c r : P r -> sends_only P (send c r).
Proof. intros Hr sent. exists [r]. split; [reflexivity|repeat constructor; exact Hr]. Qed.

Lemma sends_only_bind {A B : Type} P (m : Go A) (k : A -> Go B) :
  sends_only P m -> (forall a, sends_only P (k a)) -> sends_only P (bind m k).
Proof.
  intros Hm Hk sent. unfold bind.
  destruct (Hm sent) as [more [Em Fm]].
  destruct (m sent) as [[a|p] sent']; simpl in Em; subst sent'.
  - destruct (Hk a (sent ++ more)%list) as [more' [Ek Fk]].
    exists (more ++ more')%list. rewrite Ek, app_assoc. split; [reflexivity|].
    apply Forall_app. split; assumption.
  - exists more. split; [reflexivity|assumption].
Qed.

Lemma sends_only_bind_throw {A B : Type} P p (k : A -> Go B) :
  sends_only P (bind (throw p) k).
Proof. intros sent. exists []. rewrite app_nil_r. split; [reflexivity|constructor]. Qed.

Lemma sends_only_weaken {A : Type} (P Q : Request -> Prop) (m : Go A) :
  (forall r, P r -> Q r) -> sends_only P m -> sends_only Q m.
Proof.
  intros HPQ Hm sent. destruct (Hm sent) as [more [E F]].
  exists more. split; [exact E|]. eapply Forall_impl; eauto.
Qed.

Lemma sends_only_issued {A : Type} P (m : Go A) sent :
  sends_only P m -> Forall P (issued m sent).
Proof.
  intros Hm. destruct (Hm sent) as [more [E F]].
  unfold issued, trace. rewrite E, skipn_app_exact. exact F.
Qed.

Lemma sends_only_as_map P x : sends_only P (as_map x).
Proof. destruct x; first [apply sends_only_ret | apply sends_only_throw]. Qed.

Lemma sends_only_as_slice P x : sends_only P (as_slice x).
Proof. destruct x; first [apply sends_only_ret | apply sends_only_throw]. Qed.

Lemma sends_only_as_string P x : sends_only P (as_string x).
Proof. destruct x; first [apply sends_only_ret | apply sends_only_throw]. Qed.

Lemma sends_only_as_float64 P x : sends_only P (as_float64 x).
Proof. destruct x; first [apply sends_only_ret | apply sends_only_throw]. Qed.

Lemma sends_only_as_bool P x : sends_only P (as_bool x).
Proof. destruct x; first [apply sends_only_ret | apply sends_only_throw]. Qed.

Lemma sends_only_first P l : sends_only P (first l).
Proof. destruct l; first [apply sends_only_ret | apply sends_only_throw]. Qed.

Create HintDb sends discriminated.
#[export] Hint Resolve sends_only_ret sends_only_throw sends_only_as_map
  sends_only_as_slice sends_only_as_string sends_only_as_float64
  sends_only_as_bool sends_only_first : sends.

(** Walks through a method body: binds, branches and the pairs they bind.
    [known] closes the calls to other methods before they are unfolded. *)
Ltac sends_walk_using known :=
  repeat first
    [ progress intros
    | known
    | solve [auto with sends]
    | apply sends_only_bind
    | match goal with
      | |- sends_only _ (match ?x with _ => _ end) => destruct x
      | |- sends_only _ (if ?b then _ else _) => destruct b
      | |- sends_only _ (let _ := _ in _) => cbv zeta
      end ].

Ltac sends_walk := sends_walk_using fail.

Lemma collectIDs_sends P nameValue objectName data :
  forall objectIDs, sends_only P (collectIDs nameValue objectName data objectIDs).
Proof.
  induction data as [|v data IH]; intros objectIDs; cbn [collectIDs].
  - apply sends_only_ret.
  - sends_walk; apply IH.
Qed.

(** [ObjectID] only looks up: it never sends a POST or a PATCH. *)
Lemma ObjectID_sends_lookups c objectName objectType hostOS :
  sends_only lookup_request (ObjectID c objectName objectType hostOS).
Proof.
  unfold ObjectID, Get.
  sends_walk; try (apply sends_only_send; split; reflexivity);
    apply collectIDs_sends.
Qed.

(** ** ObjectID: usage errors (C9) and the OS qualifier (C10) *)

Lemma validObjectType_spec objectType :
  lookup_bool validObjectType objectType = true <-> In objectType objectTypes.
Proof.
  unfold validObjectType, objectTypes, lookup_bool.
  repeat match goal with
         | |- context [String.eqb ?a ?b] => destruct (String.eqb_spec a b)
         end; subst; simpl; split; intros H; try tauto; try discriminate.
Qed.

(** C9: ObjectID called with an objectType outside the enumeration, or with
    objectType "filesetTemplate" and a hostOS that is absent or neither
    "Linux" nor "Windows", returns the corresponding descriptive error and
    sends nothing to the transport. *)
Theorem ObjectID_usage_error c objectName objectType hostOS msg sent :
  UsageError objectType hostOS msg ->
  ObjectID c objectName objectType hostOS sent = (Returned ("", Some msg), sent).
Proof.
  intros H. unfold ObjectID.
  inversion H as [ty os Hty | | os rest HL HW]; subst.
  - destruct (lookup_bool validObjectType objectType) eqn:E.
    + apply validObjectType_spec in E. contradiction.
    + reflexivity.
  - reflexivity.
  - cbn. rewrite (string_eqb_false _ _ HL), (string_eqb_false _ _ HW).
    reflexivity.
Qed.

Lemma ObjectID_usage_error_witness :
  ObjectID (stub []) "web01" "fileset" [] [] = (Returned ("", Some msgObjectType), [])
  /\ ObjectID (stub []) "etc" "filesetTemplate" [] [] = (Returned ("", Some msgNoHostOS), [])
  /\ ObjectID (stub []) "etc" "filesetTemplate" ["Solaris"] []
     = (Returned ("", Some msgHostOS), []).
Proof.
  split; [|split].
  - apply (ObjectID_usage_error (stub []) "web01" "fileset" [] msgObjectType []).
    apply UnknownObjectType. unfold objectTypes. simpl.
    intros H. repeat destruct H as [H|H]; try discriminate H. exact H.
  - apply (ObjectID_usage_error (stub []) "etc" "filesetTemplate" [] msgNoHostOS []).
    apply MissingHostOS.
  - apply (ObjectID_usage_error (stub []) "etc" "filesetTemplate" ["Solaris"] msgHostOS []).
    apply UnknownHostOS; discriminate.
Defined.

(** C10: for every objectType other than "filesetTemplate", ObjectID does not
    depend on the variadic hostOS argument: two calls that differ only in
    hostOS end the same way and send the same requests. *)
Theorem ObjectID_ignores_hostOS c objectName objectType hostOS hostOS' sent :
  objectType <> "filesetTemplate" ->
  ObjectID c objectName objectType hostOS sent
  = ObjectID c objectName objectType hostOS' sent.
Proof.
  intros H. unfold ObjectID, objectSummaryAPI.
  rewrite (string_eqb_false _ _ H). reflexivity.
Qed.

Lemma ObjectID_ignores_hostOS_witness :
  ObjectID (stub [(GET, "/host?primary_cluster_id=local&hostname=db01",
                   (page 1 [entry "hostname" "db01" "Host:::7"], None))])
    "db01" "physicalHost" [] []
  = ObjectID (stub [(GET, "/host?primary_cluster_id=local&hostname=db01",
                     (page 1 [entry "hostname" "db01" "Host:::7"], None))])
      "db01" "physicalHost" ["Plan9"; "Linux"] [].
Proof.
  apply (ObjectID_ignores_hostOS _ "db01" "physicalHost" [] ["Plan9"; "Linux"] []).
  discriminate.
Defined.

(** ** ObjectID: exact-name resolution (C1) *)

(** The resolver on a well-shaped list answer, by the exact-name matches. *)
Lemma ObjectID_on_page c objectName objectType hostOS sent version endpoint
  answer total data :
  In objectType objectTypes ->
  objectSummaryAPI objectName objectType hostOS = inr (version, endpoint) ->
  result (Get c version endpoint []) sent = Returned (VMap answer, None) ->
  index answer "total" = VFloat64 total ->
  index answer "data" = VSlice data ->
  Forall (fun v => is_candidate (nameField objectType) v = true) data ->
  (data <> [] -> PrimFloat.ltb 0 total = true) ->
  result (ObjectID c objectName objectType hostOS) sent =
  match filter (named (nameField objectType) objectName) data with
  | [] => Returned ("", Some (msgNotFound objectType objectName))
  | [v] => Returned (idOf v, None)
  | _ :: _ :: _ => Returned ("", Some (msgMultiple objectType objectName))
  end.
Proof.
  intros Hty Hq Hget Htotal Hdata Hshape Hcount.
  apply validObjectType_spec in Hty.
  unfold result, Get, send in Hget. simpl in Hget. inversion Hget as [Hr]. clear Hget.
  unfold result, ObjectID. rewrite Hty, Hq. cbn [Bool.eqb].
  unfold Get. rewrite bind_send.
  destruct (remote c sent _) as [apiRequest err]. simpl in Hr. inversion Hr; subst.
  unfold bind at 1, as_map at 1, ret at 1.
  rewrite Htotal. cbn [iface_eq_int].
  unfold bind at 1, as_float64 at 1, ret at 1.
  destruct (PrimFloat.ltb 0 total) eqn:Hpos.
  - rewrite Hdata. unfold bind at 1, as_slice at 1, ret at 1.
    unfold bind at 1. fold (nameField objectType).
    rewrite (collectIDs_candidates _ objectName data Hshape).
    cbn [app].
    destruct (filter (named (nameField objectType) objectName) data) as [|v [|v' hits]];
      reflexivity.
  - destruct data as [|v data].
    + reflexivity.
    + assert (true = false) by (rewrite <- Hcount; [reflexivity | discriminate]).
      discriminate.
Qed.

(** C1: for an ObjectID call with a valid objectType whose list query
    succeeds with a well-shaped page (a float64 total that is positive when
    the page carries entries, and entries with a string name field and id):
    exactly one entry whose name field (hostname for physicalHost, name
    otherwise) equals objectName yields that entry's id and no error; no such
    entry yields the not-found error; two or more yield the ambiguity error. *)
Theorem ObjectID_exact_match c objectName objectType hostOS sent version endpoint
  answer total data :
  In objectType objectTypes ->
  objectSummaryAPI objectName objectType hostOS = inr (version, endpoint) ->
  result (Get c version endpoint []) sent = Returned (VMap answer, None) ->
  index answer "total" = VFloat64 total ->
  index answer "data" = VSlice data ->
  Forall (fun v => is_candidate (nameField objectType) v = true) data ->
  (data <> [] -> PrimFloat.ltb 0 total = true) ->
  let hits := filter (named (nameField objectType) objectName) data in
  let outcome := result (ObjectID c objectName objectType hostOS) sent in
  (forall v, hits = [v] -> outcome = Returned (idOf v, None))
  /\ (hits = [] -> outcome = Returned ("", Some (msgNotFound objectType objectName)))
  /\ (2 <= length hits ->
      outcome = Returned ("", Some (msgMultiple objectType objectName))).
Proof.
  intros Hty Hq Hget Htotal Hdata Hshape Hcount hits outcome.
  assert (E := ObjectID_on_page c objectName objectType hostOS sent version endpoint
                 answer total data Hty Hq Hget Htotal Hdata Hshape Hcount).
  fold hits in E. fold outcome in E.
  repeat split.
  - intros v Hv. rewrite E, Hv. reflexivity.
  - intros Hv. rewrite E, Hv. reflexivity.
  - intros Hlen. rewrite E. destruct hits as [|v [|v' hits']]; simpl in Hlen; try lia.
    reflexivity.
Qed.

Lemma ObjectID_exact_match_witness :
  result
    (ObjectID
       (stub [(GET, "/host?primary_cluster_id=local&hostname=db01",
               (page 2 twoHosts, None))])
       "db01" "physicalHost" []) []
  = Returned ("Host:::b2", None).
Proof.
  refine (proj1
    (ObjectID_exact_match
       (stub [(GET, "/host?primary_cluster_id=local&hostname=db01",
               (page 2 twoHosts, None))])
       "db01" "physicalHost" [] [] "v1" "/host?primary_cluster_id=local&hostname=db01"
       [("hasMore", VBool false); ("data", VSlice twoHosts); ("total", VFloat64 2)]
       2 twoHosts _ _ _ _ _ _ _)
    (entry "hostname" "db01" "Host:::b2") _).
  - unfold objectTypes. simpl. tauto.
  - reflexivity.
  - reflexivity.
  - reflexivity.
  - reflexivity.
  - repeat constructor.
  - intros _. reflexivity.
  - reflexivity.
Defined.

(** ** Guarded transitions (C7) *)

Lemma lookups_not_mutating more :
  Forall lookup_request more -> filter mutating more = [].
Proof.
  induction 1 as [|r more [Hr _] _ IH]; [reflexivity|].
  simpl. unfold mutating at 1. rewrite Hr. exact IH.
Qed.

Lemma ObjectID_extends c objectName objectType hostOS sent r sent' :
  ObjectID c objectName objectType hostOS sent = (r, sent') ->
  exists more, sent' = (sent ++ more)%list /\ filter mutating more = [].
Proof.
  intros H.
  destruct (ObjectID_sends_lookups c objectName objectType hostOS sent) as [more [E F]].
  rewrite H in E. simpl in E. exists more. split; [exact E|].
  apply lookups_not_mutating. exact F.
Qed.

Lemma guarded_noop c op sent pre noop call :
  op sent = (Returned (VString noop, None), (sent ++ pre)%list) ->
  filter mutating pre = [] ->
  guarded_transition c op sent true noop call.
Proof.
  intros Hop Hpre. unfold guarded_transition, result, issued, trace.
  rewrite Hop. simpl. rewrite skipn_app_exact. split; [reflexivity|exact Hpre].
Qed.

Lemma guarded_call c op sent pre noop call (k : value * error -> value * error) :
  op sent = (Returned (k (remote c (sent ++ pre)%list call)),
             ((sent ++ pre) ++ [call])%list) ->
  filter mutating pre = [] ->
  mutating call = true ->
  (forall body, k (body, None) = (body, None)) ->
  guarded_transition c op sent false noop call.
Proof.
  intros Hop Hpre Hcall Hraw. unfold guarded_transition, result, issued, trace.
  exists (sent ++ pre)%list. rewrite Hop. simpl. split; [reflexivity|]. split.
  - rewrite <- app_assoc, skipn_app_exact, filter_app, Hpre. simpl.
    rewrite Hcall. reflexivity.
  - intros body Hbody. rewrite Hbody, Hraw. reflexivity.
Qed.

Lemma filter_mutating_snoc_get pre r :
  filter mutating pre = [] -> method r = GET ->
  filter mutating (pre ++ [r])%list = [].
Proof.
  intros Hpre Hr. rewrite filter_app, Hpre. simpl. unfold mutating. rewrite Hr.
  reflexivity.
Qed.

Lemma Begin_guarded c name tmo sent sent1 managedVolumeID summary isWritable :
  ObjectID c name "managedVolume" [] sent = (Returned (managedVolumeID, None), sent1) ->
  remote c sent1
    (mkRequest GET "internal" ("/managed_volume/" ++ managedVolumeID) VNil
       [httpTimeout tmo]) = (VMap summary, None) ->
  index summary "isWritable" = VBool isWritable ->
  guarded_transition c (BeginManagedVolumeSnapshot c name tmo) sent
    isWritable (msgAlreadyWritable name)
    (mkRequest POST "internal"
       ("/managed_volume/" ++ managedVolumeID ++ "/begin_snapshot") (VMap [])
       [httpTimeout tmo]).
Proof.
  intros Hid Hget Hflag.
  destruct (ObjectID_extends _ _ _ _ _ _ _ Hid) as [more [E Hmore]]. subst sent1.
  set (get := mkRequest GET "internal" ("/managed_volume/" ++ managedVolumeID) VNil
                [httpTimeout tmo]) in *.
  assert (Hpre : filter mutating (more ++ [get])%list = [])
    by (apply filter_mutating_snoc_get; [exact Hmore|reflexivity]).
  destruct isWritable.
  - apply guarded_noop with (pre := (more ++ [get])%list); [|exact Hpre].
    unfold BeginManagedVolumeSnapshot. rewrite (bind_returned _ _ _ _ _ Hid).
    unfold Get. rewrite bind_send. fold get. rewrite Hget.
    unfold bind, as_map, ret. rewrite Hflag. simpl. rewrite app_assoc. reflexivity.
  - apply guarded_call with (pre := (more ++ [get])%list) (k := checked);
      [|exact Hpre|reflexivity|reflexivity].
    unfold BeginManagedVolumeSnapshot. rewrite (bind_returned _ _ _ _ _ Hid).
    unfold Get. rewrite bind_send. fold get. rewrite Hget.
    unfold bind at 1, as_map at 1, ret at 1. rewrite Hflag.
    unfold bind at 1, as_bool at 1, ret at 1.
    unfold Post. rewrite bind_send. rewrite <- app_assoc.
    destruct (remote c _ (mkRequest POST _ _ _ _)) as [body [e|]]; reflexivity.
Qed.

(** On a writable volume [EndManagedVolumeSnapshot] reaches its POST, after
    lookups only, and returns the body answered to it with a nil error,
    whatever error came with that body. *)
Lemma End_writable_run c name slaName tmo sent sent1 managedVolumeID summary
  retention :
  ObjectID c name "managedVolume" [] sent = (Returned (managedVolumeID, None), sent1) ->
  remote c sent1
    (mkRequest GET "internal" ("/managed_volume/" ++ managedVolumeID) VNil
       [httpTimeout tmo]) = (VMap summary, None) ->
  index summary "isWritable" = VBool true ->
  Retention c slaName
    (sent1 ++ [mkRequest GET "internal" ("/managed_volume/" ++ managedVolumeID)
                 VNil [httpTimeout tmo]])%list retention ->
  exists pre,
    filter mutating pre = []
    /\ EndManagedVolumeSnapshot c name slaName tmo sent
       = (Returned
            (unchecked
               (remote c (sent ++ pre)%list
                  (mkRequest POST "internal"
                     ("/managed_volume/" ++ managedVolumeID ++ "/end_snapshot")
                     (VMap retention) [httpTimeout tmo]))),
          ((sent ++ pre)
             ++ [mkRequest POST "internal"
                   ("/managed_volume/" ++ managedVolumeID ++ "/end_snapshot")
                   (VMap retention) [httpTimeout tmo]])%list).
Proof.
  intros Hid Hget Hflag Hret.
  destruct (ObjectID_extends _ _ _ _ _ _ _ Hid) as [more [E Hmore]]. subst sent1.
  set (get := mkRequest GET "internal" ("/managed_volume/" ++ managedVolumeID) VNil
                [httpTimeout tmo]) in *.
  assert (Hpre : filter mutating (more ++ [get])%list = [])
    by (apply filter_mutating_snoc_get; [exact Hmore|reflexivity]).
  unfold EndManagedVolumeSnapshot.
  rewrite (bind_returned _ _ _ _ _ Hid).
  unfold Get. rewrite bind_send. fold get. rewrite Hget.
  unfold bind at 1, as_map at 1, ret at 1. rewrite Hflag.
  unfold bind at 1, as_bool at 1, ret at 1. cbn [Bool.eqb].
  inversion Hret as [Hcur | slaID sent3 Hcur Hsla]; subst.
  - exists (more ++ [get])%list. split; [exact Hpre|].
    cbn [String.eqb Ascii.eqb Bool.eqb].
    unfold Post. rewrite bind_send. rewrite <- app_assoc.
    destruct (remote c _ (mkRequest POST _ _ _ _)) as [body err]; reflexivity.
  - destruct (ObjectID_extends _ _ _ _ _ _ _ Hsla) as [more2 [E2 Hmore2]]. subst sent3.
    exists (more ++ [get] ++ more2)%list. split.
    + rewrite app_assoc, filter_app, Hpre, Hmore2. reflexivity.
    + rewrite (string_eqb_false _ _ Hcur).
      rewrite (bind_returned _ _ _ _ _ Hsla).
      unfold Post. rewrite bind_send.
      replace (sent ++ more ++ [get] ++ more2)%list
        with (((sent ++ more) ++ [get]) ++ more2)%list
        by (rewrite <- !app_assoc; reflexivity).
      destruct (remote c _ (mkRequest POST _ _ _ _)) as [body err]; reflexivity.
Qed.

Lemma End_guarded c name slaName tmo sent sent1 managedVolumeID summary isWritable
  retention :
  ObjectID c name "managedVolume" [] sent = (Returned (managedVolumeID, None), sent1) ->
  remote c sent1
    (mkRequest GET "internal" ("/managed_volume/" ++ managedVolumeID) VNil
       [httpTimeout tmo]) = (VMap summary, None) ->
  index summary "isWritable" = VBool isWritable ->
  (isWritable = true ->
   Retention c slaName
     (sent1 ++ [mkRequest GET "internal" ("/managed_volume/" ++ managedVolumeID)
                  VNil [httpTimeout tmo]])%list retention) ->
  guarded_transition c (EndManagedVolumeSnapshot c name slaName tmo) sent
    (negb isWritable) (msgAlreadyReadOnly name)
    (mkRequest POST "internal"
       ("/managed_volume/" ++ managedVolumeID ++ "/end_snapshot") (VMap retention)
       [httpTimeout tmo]).
Proof.
  intros Hid Hget Hflag Hret.
  destruct isWritable; cbn [negb].
  - destruct (End_writable_run _ _ _ _ _ _ _ _ _ Hid Hget Hflag (Hret eq_refl))
      as [pre [Hpre Hrun]].
    apply guarded_call with (pre := pre) (k := unchecked);
      [exact Hrun|exact Hpre|reflexivity|reflexivity].
  - destruct (ObjectID_extends _ _ _ _ _ _ _ Hid) as [more [E Hmore]]. subst sent1.
    set (get := mkRequest GET "internal" ("/managed_volume/" ++ managedVolumeID) VNil
                  [httpTimeout tmo]) in *.
    apply guarded_noop with (pre := (more ++ [get])%list);
      [|apply filter_mutating_snoc_get; [exact Hmore|reflexivity]].
    unfold EndManagedVolumeSnapshot. rewrite (bind_returned _ _ _ _ _ Hid).
    unfold Get. rewrite bind_send. fold get. rewrite Hget.
    unfold bind, as_map, ret. rewrite Hflag. simpl. rewrite app_assoc. reflexivity.
Qed.

Lemma vmware_supported : lookup_bool validObjectTypeVM "vmware" = true.
Proof. reflexivity. Qed.

Lemma isSnappableBlackoutActive_reads summary status active sent :
  index summary "blackoutWindowStatus" = VMap status ->
  index status "isSnappableBlackoutActive" = VBool active ->
  isSnappableBlackoutActive (VMap summary) sent = (Returned active, sent).
Proof.
  intros Hs Ha. unfold isSnappableBlackoutActive, bind, as_map, ret.
  rewrite Hs, Ha. reflexivity.
Qed.

Lemma Pause_guarded c objectName tmo sent sent1 vmID summary status active :
  ObjectID c objectName "vmware" [] sent = (Returned (vmID, None), sent1) ->
  remote c sent1
    (mkRequest GET "v1" ("/vmware/vm/" ++ vmID) VNil [snapshotTimeout tmo])
  = (VMap summary, None) ->
  index summary "blackoutWindowStatus" = VMap status ->
  index status "isSnappableBlackoutActive" = VBool active ->
  guarded_transition c (PauseSnapshot c objectName "vmware" tmo) sent
    active (msgAlreadyPaused objectName "vmware")
    (mkRequest PATCH "v1" ("/vmware/vm/" ++ vmID)
       (VMap [("isVmPaused", VBool true)]) [snapshotTimeout tmo]).
Proof.
  intros Hid Hget Hs Ha.
  destruct (ObjectID_extends _ _ _ _ _ _ _ Hid) as [more [E Hmore]]. subst sent1.
  set (get := mkRequest GET "v1" ("/vmware/vm/" ++ vmID) VNil [snapshotTimeout tmo]) in *.
  assert (Hpre : filter mutating (more ++ [get])%list = [])
    by (apply filter_mutating_snoc_get; [exact Hmore|reflexivity]).
  destruct active; cbn [negb].
  - apply guarded_noop with (pre := (more ++ [get])%list); [|exact Hpre].
    unfold PauseSnapshot. rewrite vmware_supported. cbn [Bool.eqb]. rewrite String.eqb_refl.
    rewrite (bind_returned _ _ _ _ _ Hid).
    unfold Get. rewrite bind_send. fold get. rewrite Hget.
    rewrite (bind_returned _ _ _ _ _ (isSnappableBlackoutActive_reads _ _ _ _ Hs Ha)).
    rewrite app_assoc. reflexivity.
  - apply guarded_call with (pre := (more ++ [get])%list) (k := checked);
      [|exact Hpre|reflexivity|reflexivity].
    unfold PauseSnapshot. rewrite vmware_supported. cbn [Bool.eqb]. rewrite String.eqb_refl.
    rewrite (bind_returned _ _ _ _ _ Hid).
    unfold Get. rewrite bind_send. fold get. rewrite Hget.
    rewrite (bind_returned _ _ _ _ _ (isSnappableBlackoutActive_reads _ _ _ _ Hs Ha)).
    cbn [Bool.eqb].
    unfold Patch. rewrite bind_send. rewrite <- app_assoc.
    destruct (remote c _ (mkRequest PATCH _ _ _ _)) as [body [e|]]; reflexivity.
Qed.

Lemma Resume_guarded c objectName tmo sent sent1 vmID summary status active :
  ObjectID c objectName "vmware" [] sent = (Returned (vmID, None), sent1) ->
  remote c sent1
    (mkRequest GET "v1" ("/vmware/vm/" ++ vmID) VNil [snapshotTimeout tmo])
  = (VMap summary, None) ->
  index summary "blackoutWindowStatus" = VMap status ->
  index status "isSnappableBlackoutActive" = VBool active ->
  guarded_transition c (ResumeSnapshot c objectName "vmware" tmo) sent
    (negb active) (msgNotPaused objectName "vmware")
    (mkRequest PATCH "v1" ("/vmware/vm/" ++ vmID)
       (VMap [("isVmPaused", VBool false)]) [snapshotTimeout tmo]).
Proof.
  intros Hid Hget Hs Ha.
  destruct (ObjectID_extends _ _ _ _ _ _ _ Hid) as [more [E Hmore]]. subst sent1.
  set (get := mkRequest GET "v1" ("/vmware/vm/" ++ vmID) VNil [snapshotTimeout tmo]) in *.
  assert (Hpre : filter mutating (more ++ [get])%list = [])
    by (apply filter_mutating_snoc_get; [exact Hmore|reflexivity]).
  destruct active; cbn [negb].
  - apply guarded_call with (pre := (more ++ [get])%list) (k := checked);
      [|exact Hpre|reflexivity|reflexivity].
    unfold ResumeSnapshot. rewrite vmware_supported. cbn [Bool.eqb]. rewrite String.eqb_refl.
    rewrite (bind_returned _ _ _ _ _ Hid).
    unfold Get. rewrite bind_send. fold get. rewrite Hget.
    rewrite (bind_returned _ _ _ _ _ (isSnappableBlackoutActive_reads _ _ _ _ Hs Ha)).
    cbn [Bool.eqb].
    unfold Patch. rewrite bind_send. rewrite <- app_assoc.
    destruct (remote c _ (mkRequest PATCH _ _ _ _)) as [body [e|]]; reflexivity.
  - apply guarded_noop with (pre := (more ++ [get])%list); [|exact Hpre].
    unfold ResumeSnapshot. rewrite vmware_supported. cbn [Bool.eqb]. rewrite String.eqb_refl.
    rewrite (bind_returned _ _ _ _ _ Hid).
    unfold Get. rewrite bind_send. fold get. rewrite Hget.
    rewrite (bind_returned _ _ _ _ _ (isSnappableBlackoutActive_reads _ _ _ _ Hs Ha)).
    rewrite app_assoc. reflexivity.
Qed.

(** C7: Begin/EndManagedVolumeSnapshot and Pause/ResumeSnapshot are guarded
    transitions.  Once the object is resolved and its summary fetched, the
    flag read from the summary (isWritable for a volume, the nested
    isSnappableBlackoutActive for a VM) decides: if it already has the
    operation's target value the operation returns its no-op message and
    sends no mutating request; otherwise it sends exactly one mutating
    request (begin_snapshot, end_snapshot, or the PATCH with isVmPaused true
    for pause and false for resume) and returns the body answered to it. *)
Theorem snapshot_operations_guarded (c : Credentials) (sent : list Request)
  (tmo : list Z) :
  (forall name sent1 managedVolumeID summary isWritable,
      ObjectID c name "managedVolume" [] sent
      = (Returned (managedVolumeID, None), sent1) ->
      remote c sent1
        (mkRequest GET "internal" ("/managed_volume/" ++ managedVolumeID) VNil
           [httpTimeout tmo]) = (VMap summary, None) ->
      index summary "isWritable" = VBool isWritable ->
      guarded_transition c (BeginManagedVolumeSnapshot c name tmo) sent
        isWritable (msgAlreadyWritable name)
        (mkRequest POST "internal"
           ("/managed_volume/" ++ managedVolumeID ++ "/begin_snapshot") (VMap [])
           [httpTimeout tmo]))
  /\ (forall name slaName sent1 managedVolumeID summary isWritable retention,
      ObjectID c name "managedVolume" [] sent
      = (Returned (managedVolumeID, None), sent1) ->
      remote c sent1
        (mkRequest GET "internal" ("/managed_volume/" ++ managedVolumeID) VNil
           [httpTimeout tmo]) = (VMap summary, None) ->
      index summary "isWritable" = VBool isWritable ->
      (isWritable = true ->
       Retention c slaName
         (sent1 ++ [mkRequest GET "internal" ("/managed_volume/" ++ managedVolumeID)
                      VNil [httpTimeout tmo]])%list retention) ->
      guarded_transition c (EndManagedVolumeSnapshot c name slaName tmo) sent
        (negb isWritable) (msgAlreadyReadOnly name)
        (mkRequest POST "internal"
           ("/managed_volume/" ++ managedVolumeID ++ "/end_snapshot") (VMap retention)
           [httpTimeout tmo]))
  /\ (forall objectName sent1 vmID summary status active,
      ObjectID c objectName "vmware" [] sent = (Returned (vmID, None), sent1) ->
      remote c sent1
        (mkRequest GET "v1" ("/vmware/vm/" ++ vmID) VNil [snapshotTimeout tmo])
      = (VMap summary, None) ->
      index summary "blackoutWindowStatus" = VMap status ->
      index status "isSnappableBlackoutActive" = VBool active ->
      guarded_transition c (PauseSnapshot c objectName "vmware" tmo) sent
        active (msgAlreadyPaused objectName "vmware")
        (mkRequest PATCH "v1" ("/vmware/vm/" ++ vmID)
           (VMap [("isVmPaused", VBool true)]) [snapshotTimeout tmo])
      /\ guarded_transition c (ResumeSnapshot c objectName "vmware" tmo) sent
           (negb active) (msgNotPaused objectName "vmware")
           (mkRequest PATCH "v1" ("/vmware/vm/" ++ vmID)
              (VMap [("isVmPaused", VBool false)]) [snapshotTimeout tmo])).
Proof.
  split; [|split].
  - intros. eapply Begin_guarded; eauto.
  - intros. eapply End_guarded; eauto.
  - intros. split; [eapply Pause_guarded | eapply Resume_guarded]; eauto.
Qed.

Lemma snapshot_operations_guarded_witness :
  guarded_transition lab (PauseSnapshot lab "web01" "vmware" []) []
    false (msgAlreadyPaused "web01" "vmware")
    (mkRequest PATCH "v1" "/vmware/vm/vm-1" (VMap [("isVmPaused", VBool true)]) [180%Z])
  /\ guarded_transition lab (ResumeSnapshot lab "web01" "vmware" []) []
       true (msgNotPaused "web01" "vmware")
       (mkRequest PATCH "v1" "/vmware/vm/vm-1" (VMap [("isVmPaused", VBool false)])
          [180%Z]).
Proof.
  refine (proj2 (proj2 (snapshot_operations_guarded lab [] []))
            "web01"
            [mkRequest GET "v1"
               "/vmware/vm?primary_cluster_id=local&is_relic=false&name=web01" VNil []]
            "vm-1"
            [("id", VString "vm-1");
             ("effectiveSlaDomainId", VString "sla-gold");
             ("configuredSlaDomainId", VString "sla-gold");
             ("blackoutWindowStatus",
              VMap [("isGlobalBlackoutActive", VBool false);
                    ("isSnappableBlackoutActive", VBool false)])]
            [("isGlobalBlackoutActive", VBool false);
             ("isSnappableBlackoutActive", VBool false)]
            false _ _ _ _); reflexivity.
Defined.

(** ** AssignSLA (C2, C5) *)

(** X14: with one of the two sentinel names, [AssignSLA] is a guarded
    transition on the sentinel identifier: compared with the configured SLA
    for INHERIT and with the effective SLA for UNPROTECTED, and used in the
    path of the assignment. *)
Lemma AssignSLA_sentinel_guarded c objectName slaName slaID tmo sent sent1 vmID
  summary currentSLAID :
  (slaName = "do not protect" /\ slaID = "UNPROTECTED")
  \/ (slaName = "clear" /\ slaID = "INHERIT") ->
  ObjectID c objectName "vmware" [] sent = (Returned (vmID, None), sent1) ->
  remote c sent1 (mkRequest GET "v1" ("/vmware/vm/" ++ vmID) VNil [httpTimeout tmo])
  = (VMap summary, None) ->
  index summary
    (if String.eqb slaID "INHERIT" then "configuredSlaDomainId"
     else "effectiveSlaDomainId") = VString currentSLAID ->
  guarded_transition c (AssignSLA c objectName "vmware" slaName tmo) sent
    (String.eqb slaID currentSLAID) (msgAlreadyAssigned objectName slaName)
    (mkRequest POST "internal" ("/sla_domain/" ++ slaID ++ "/assign")
       (VMap [("managedIds", VSlice [VString vmID])]) [httpTimeout tmo]).
Proof.
  intros Hname Hid Hget Hcur.
  destruct (ObjectID_extends _ _ _ _ _ _ _ Hid) as [more [E Hmore]]. subst sent1.
  set (get := mkRequest GET "v1" ("/vmware/vm/" ++ vmID) VNil [httpTimeout tmo]) in *.
  assert (Hpre : filter mutating (more ++ [get])%list = [])
    by (apply filter_mutating_snoc_get; [exact Hmore|reflexivity]).
  assert (Hrun :
    AssignSLA c objectName "vmware" slaName tmo sent =
    (if String.eqb slaID currentSLAID
     then ret (VString (msgAlreadyAssigned objectName slaName), None)
     else
       '(apiRequest, err) <-
          Post c "internal" ("/sla_domain/" ++ slaID ++ "/assign")
            (VMap [("managedIds", VSlice [VString vmID])]) [httpTimeout tmo] ;;
       match err with
       | Some e => ret (VNil, Some e)
       | None => ret (apiRequest, None)
       end) (sent ++ more ++ [get])%list).
  { unfold AssignSLA. rewrite vmware_supported. cbn [Bool.eqb].
    rewrite String.eqb_refl.
    destruct Hname as [[Hn Hs] | [Hn Hs]]; subst slaName slaID;
      cbn [String.eqb Ascii.eqb Bool.eqb] in Hcur |- *;
      rewrite (bind_returned _ _ _ _ _ Hid);
      unfold Get; rewrite bind_send; fold get; rewrite Hget;
      unfold bind at 1, as_map at 1, ret at 1;
      rewrite Hcur; unfold bind at 1, as_string at 1, ret at 1;
      rewrite <- app_assoc; reflexivity. }
  destruct (String.eqb slaID currentSLAID).
  - apply guarded_noop with (pre := (more ++ [get])%list); [|exact Hpre].
    rewrite Hrun. reflexivity.
  - apply guarded_call with (pre := (more ++ [get])%list) (k := checked);
      [|exact Hpre|reflexivity|reflexivity].
    rewrite Hrun. unfold Post. rewrite bind_send.
    destruct (remote c _ (mkRequest POST _ _ _ _)) as [body [e|]]; reflexivity.
Qed.

(** With any other SLA name, every mutating request of [AssignSLA] goes to
    the path built from the empty identifier, whatever the lookup resolved. *)
Lemma AssignSLA_named_sla_path c objectName objectType slaName tmo sent :
  slaName <> "do not protect" -> slaName <> "clear" ->
  Forall (fun r => mutating r = true -> route r = (POST, "/sla_domain//assign"))
    (issued (AssignSLA c objectName objectType slaName tmo) sent).
Proof.
  intros Hd Hc. apply sends_only_issued.
  unfold AssignSLA.
  rewrite (string_eqb_false _ _ Hd), (string_eqb_false _ _ Hc).
  assert (Hlook : forall n t os,
    sends_only (fun r => mutating r = true -> route r = (POST, "/sla_domain//assign"))
      (ObjectID c n t os)).
  { intros n t os. eapply sends_only_weaken; [|apply ObjectID_sends_lookups].
    intros r [Hg _] Hm. unfold mutating in Hm. rewrite Hg in Hm. discriminate. }
  unfold Get, Post.
  sends_walk_using ltac:(apply Hlook);
    apply sends_only_send; intros Hm; try reflexivity; discriminate Hm.
Qed.

(** C2 does not hold of the code; a run on the cluster [lab].  The SLA
    lookup for "Gold" resolves "sla-gold", yet the assignment of VM web02 is
    posted to /sla_domain//assign: the resolved identifier is not the one the
    mutating call uses. *)
Theorem AssignSLA_drops_resolved_id :
  result (ObjectID lab "Gold" "sla" []) [] = Returned ("sla-gold", None)
  /\ map route (filter mutating (trace (AssignSLA lab "web02" "vmware" "Gold" []) []))
     = [(POST, "/sla_domain//assign")].
Proof. split; vm_compute; reflexivity. Qed.

(** C5 does not hold of the code; a run on the cluster [lab].  VM web01
    already has the effective SLA "sla-gold" that "Gold" resolves to, yet
    AssignSLA does not return the no-op message and posts an assignment (to
    the path built from the empty identifier). *)
Theorem AssignSLA_misses_noop :
  result (ObjectID lab "Gold" "sla" []) [] = Returned ("sla-gold", None)
  /\ fieldOf "effectiveSlaDomainId"
       (fst (remote lab [] (mkRequest GET "v1" "/vmware/vm/vm-1" VNil [15%Z])))
     = Some "sla-gold"
  /\ result (AssignSLA lab "web01" "vmware" "Gold" []) []
     = Returned (VNil, Some "404 Not Found")
  /\ map route (filter mutating (trace (AssignSLA lab "web01" "vmware" "Gold" []) []))
     = [(POST, "/sla_domain//assign")].
Proof. repeat split; vm_compute; reflexivity. Qed.

(** ** EndManagedVolumeSnapshot: the error of the POST (C3) *)

(** On a writable volume the caller always gets a nil error, also when the
    cluster answered the end_snapshot POST with an error. *)
Lemma EndManagedVolumeSnapshot_nil_error c name slaName tmo sent sent1
  managedVolumeID summary retention :
  ObjectID c name "managedVolume" [] sent = (Returned (managedVolumeID, None), sent1) ->
  remote c sent1
    (mkRequest GET "internal" ("/managed_volume/" ++ managedVolumeID) VNil
       [httpTimeout tmo]) = (VMap summary, None) ->
  index summary "isWritable" = VBool true ->
  Retention c slaName
    (sent1 ++ [mkRequest GET "internal" ("/managed_volume/" ++ managedVolumeID)
                 VNil [httpTimeout tmo]])%list retention ->
  exists apiRequest,
    result (EndManagedVolumeSnapshot c name slaName tmo) sent
    = Returned (apiRequest, None).
Proof.
  intros Hid Hget Hflag Hret.
  destruct (End_writable_run _ _ _ _ _ _ _ _ _ Hid Hget Hflag Hret) as [pre [_ Hrun]].
  unfold result. rewrite Hrun. unfold unchecked. eexists. reflexivity.
Qed.

(** C3 does not hold of the code; a run on the cluster [lab].  The cluster
    answers the end_snapshot POST with an error, and EndManagedVolumeSnapshot
    returns a nil error to its caller. *)
Theorem EndManagedVolumeSnapshot_drops_error :
  remote lab
    [mkRequest GET "internal"
       "/managed_volume?is_relic=false&primary_cluster_id=local&name=oracle" VNil [];
     mkRequest GET "internal" "/managed_volume/mv-9" VNil [15%Z]]
    (mkRequest POST "internal" "/managed_volume/mv-9/end_snapshot" (VMap []) [15%Z])
  = (VNil, Some "500 Internal Server Error")
  /\ EndManagedVolumeSnapshot lab "oracle" "current" [] []
     = (Returned (VNil, None),
        [mkRequest GET "internal"
           "/managed_volume?is_relic=false&primary_cluster_id=local&name=oracle" VNil [];
         mkRequest GET "internal" "/managed_volume/mv-9" VNil [15%Z];
         mkRequest POST "internal" "/managed_volume/mv-9/end_snapshot" (VMap [])
           [15%Z]]).
Proof. split; vm_compute; reflexivity. Qed.

(** ** On-demand snapshots (C4, C6) *)

Lemma firstLinkHref_reads answer link rest href sent :
  index answer "links" = VSlice (VMap link :: rest) ->
  index link "href" = VString href ->
  firstLinkHref (VMap answer) sent = (Returned href, sent).
Proof.
  intros Hl Hh. unfold firstLinkHref, bind, as_map, ret. rewrite Hl. simpl.
  rewrite Hh. reflexivity.
Qed.

(** X15: with "current", the snapshot is requested with the effective SLA read
    from the VM's own summary, and the href of the first link is returned. *)
Lemma OnDemandSnapshotVM_current c objectName tmo sent sent1 vmID summary slaId
  answer link rest href :
  ObjectID c objectName "vmware" [] sent = (Returned (vmID, None), sent1) ->
  remote c sent1 (mkRequest GET "v1" ("/vmware/vm/" ++ vmID) VNil [])
  = (VMap summary, None) ->
  index summary "effectiveSlaDomainId" = VString slaId ->
  remote c (sent1 ++ [mkRequest GET "v1" ("/vmware/vm/" ++ vmID) VNil []])%list
    (mkRequest POST "v1" ("/vmware/vm/" ++ vmID ++ "/snapshot")
       (VMap [("slaId", VString slaId)]) [snapshotTimeout tmo])
  = (VMap answer, None) ->
  index answer "links" = VSlice (VMap link :: rest) ->
  index link "href" = VString href ->
  OnDemandSnapshotVM c objectName "vmware" "current" tmo sent
  = (Returned (href, None),
     (sent1 ++ [mkRequest GET "v1" ("/vmware/vm/" ++ vmID) VNil [];
                mkRequest POST "v1" ("/vmware/vm/" ++ vmID ++ "/snapshot")
                  (VMap [("slaId", VString slaId)]) [snapshotTimeout tmo]])%list).
Proof.
  intros Hid Hget Hsla Hpost Hlinks Hhref.
  unfold OnDemandSnapshotVM. rewrite vmware_supported. cbn [Bool.eqb].
  rewrite !String.eqb_refl.
  rewrite (bind_returned _ _ _ _ _ Hid).
  unfold Get. rewrite bind_send, Hget.
  unfold bind at 1, as_map at 1, ret at 1. rewrite Hsla.
  unfold bind at 1, as_string at 1, ret at 1.
  unfold Post. rewrite bind_send, Hpost.
  rewrite (bind_returned _ _ _ _ _
             (firstLinkHref_reads _ link rest href _ Hlinks Hhref)).
  unfold ret. rewrite <- app_assoc. reflexivity.
Qed.

(** With any other SLA name, [OnDemandSnapshotVM] never reaches the snapshot
    POST: all it sends are lookups. *)
Lemma OnDemandSnapshotVM_named_sla_never_posts c objectName objectType slaName tmo :
  slaName <> "current" ->
  sends_only lookup_request (OnDemandSnapshotVM c objectName objectType slaName tmo).
Proof.
  intros Hcur. unfold OnDemandSnapshotVM.
  rewrite (string_eqb_false _ _ Hcur).
  sends_walk_using
    ltac:(first [ apply ObjectID_sends_lookups
                | apply (sends_only_bind_throw lookup_request InterfaceConversion) ]).
Qed.

(** ... and it never returns a job URL. *)
Lemma OnDemandSnapshotVM_named_sla_fails c objectName slaName tmo sent href :
  slaName <> "current" ->
  result (OnDemandSnapshotVM c objectName "vmware" slaName tmo) sent
  <> Returned (href, None).
Proof.
  intros Hcur. unfold result, OnDemandSnapshotVM.
  rewrite vmware_supported. cbn [Bool.eqb]. rewrite String.eqb_refl.
  rewrite (string_eqb_false _ _ Hcur).
  unfold bind at 1.
  destruct (ObjectID c objectName "vmware" [] sent) as [[[vmID [e|]]|p] sent1];
    [discriminate| |discriminate].
  unfold bind at 1.
  destruct (ObjectID c slaName "sla" [] sent1) as [[[slaID [e|]]|p] sent2];
    discriminate.
Qed.

(** C4 does not hold of the code; a run on the cluster [lab].  With the SLA
    name "Gold", which the SLA lookup resolves to "sla-gold",
    OnDemandSnapshotVM panics on the type assertion that reads the identifier
    as a map: no snapshot POST with slaId "sla-gold" is sent and no href is
    returned. *)
Theorem OnDemandSnapshotVM_named_sla_panics :
  result (ObjectID lab "Gold" "sla" [])
    [mkRequest GET "v1"
       "/vmware/vm?primary_cluster_id=local&is_relic=false&name=web01" VNil []]
  = Returned ("sla-gold", None)
  /\ OnDemandSnapshotVM lab "web01" "vmware" "Gold" [] []
     = (Panicked InterfaceConversion,
        [mkRequest GET "v1"
           "/vmware/vm?primary_cluster_id=local&is_relic=false&name=web01" VNil [];
         mkRequest GET "v1" "/sla_domain?primary_cluster_id=local&name=Gold" VNil []]).
Proof. split; vm_compute; reflexivity. Qed.

(** A float64 total never equals the integer constant of [total == 0]. *)
Lemma float64_total_is_not_int_zero answer total :
  index answer "total" = VFloat64 total ->
  iface_eq_int (index answer "total") 0 = false.
Proof. intros H. rewrite H. reflexivity. Qed.

(** C6 does not hold of the code; a run on the cluster [lab].  The fileset
    query for host "host-4" and template "tmpl-3" answers total 0 with no
    entries; OnDemandSnapshotPhysical does not return the not-assigned error
    but panics on [data[0]].  No snapshot POST is sent. *)
Theorem OnDemandSnapshotPhysical_empty_fileset_panics :
  remote lab []
    (mkRequest GET "v1"
       "/fileset?primary_cluster_id=local&host_id=host-4&is_relic=false&template_id=tmpl-3"
       VNil [])
  = (page 0 [], None)
  /\ OnDemandSnapshotPhysical lab "db01" "Gold" "etc" "Linux" [] []
     = (Panicked IndexOutOfRange,
        [mkRequest GET "v1" "/host?primary_cluster_id=local&hostname=db01" VNil [];
         mkRequest GET "v1"
           "/fileset_template?primary_cluster_id=local&operating_system_type=Linux&name=etc"
           VNil [];
         mkRequest GET "v1"
           "/fileset?primary_cluster_id=local&host_id=host-4&is_relic=false&template_id=tmpl-3"
           VNil []]).
Proof. split; vm_compute; reflexivity. Qed.

(** Whenever the fileset answer carries a float64 total and no entry, the
    guard [total == 0] is false and the method panics on [data[0]]. *)
Lemma OnDemandSnapshotPhysical_no_fileset c hostName slaName fileset hostOS tmo
  sent sent1 sent2 hostID filesetTemplateID summary total :
  lookup_bool validHostOs hostOS = true ->
  ObjectID c hostName "physicalHost" [] sent = (Returned (hostID, None), sent1) ->
  ObjectID c fileset "filesetTemplate" [hostOS] sent1
  = (Returned (filesetTemplateID, None), sent2) ->
  remote c sent2
    (mkRequest GET "v1"
       ("/fileset?primary_cluster_id=local&host_id=" ++ hostID
          ++ "&is_relic=false&template_id=" ++ filesetTemplateID) VNil [])
  = (VMap summary, None) ->
  index summary "total" = VFloat64 total ->
  index summary "data" = VSlice [] ->
  OnDemandSnapshotPhysical c hostName slaName fileset hostOS tmo sent
  = (Panicked IndexOutOfRange,
     (sent2 ++ [mkRequest GET "v1"
                  ("/fileset?primary_cluster_id=local&host_id=" ++ hostID
                     ++ "&is_relic=false&template_id=" ++ filesetTemplateID)
                  VNil []])%list).
Proof.
  intros Hos Hhost Htmpl Hget Htotal Hdata.
  unfold OnDemandSnapshotPhysical. rewrite Hos. cbn [Bool.eqb].
  rewrite (bind_returned _ _ _ _ _ Hhost).
  rewrite (bind_returned _ _ _ _ _ Htmpl).
  unfold Get. rewrite bind_send, Hget.
  unfold bind at 1, as_map at 1, ret at 1.
  rewrite (float64_total_is_not_int_zero _ _ Htotal), Hdata.
  reflexivity.
Qed.

(** ** The timeout of the snapshot operations (C8) *)

Lemma snapshotTimeout_spec tmo T : CallerTimeout tmo T -> snapshotTimeout tmo = T.
Proof.
  intros H. destruct H as [|t rest Ht|rest]; unfold snapshotTimeout, httpTimeout.
  - reflexivity.
  - destruct (Z.eqb_spec t 15); [contradiction|reflexivity].
  - reflexivity.
Qed.

Lemma ObjectID_carries c T objectName objectType hostOS :
  sends_only (carries T) (ObjectID c objectName objectType hostOS).
Proof.
  eapply sends_only_weaken; [|apply ObjectID_sends_lookups].
  intros r [Hg Ht]. split.
  - unfold mutating. rewrite Hg. discriminate.
  - right. exact Ht.
Qed.

Lemma send_carries c T m version endpoint body tmo :
  tmo = [T] \/ (m = GET /\ tmo = []) ->
  sends_only (carries T) (send c (mkRequest m version endpoint body tmo)).
Proof.
  intros H. apply sends_only_send. unfold carries, mutating. simpl.
  destruct H as [H|[Hm H]]; subst.
  - split; auto.
  - split; [discriminate|auto].
Qed.

(** The one request [ObjectID] sends is its list query. *)
Lemma ObjectID_sends_query c objectName objectType hostOS :
  sends_only (listQuery objectName objectType hostOS)
    (ObjectID c objectName objectType hostOS).
Proof.
  unfold ObjectID.
  destruct (Bool.eqb _ false); [apply sends_only_ret|].
  destruct (objectSummaryAPI objectName objectType hostOS)
    as [e|[version endpoint]] eqn:Hq; [apply sends_only_ret|].
  unfold Get. apply sends_only_bind.
  - apply sends_only_send. exists version, endpoint. split; [exact Hq|reflexivity].
  - sends_walk. apply collectIDs_sends.
Qed.

(** Chooses the case of a request among those a statement allows. *)
Ltac pick_case :=
  first
    [ reflexivity
    | assumption
    | left; pick_case
    | right; pick_case
    | split; [pick_case | pick_case]
    | eexists; pick_case ].

Ltac uses_timeout_walk :=
  unfold Get, Post, Patch;
  sends_walk_using
    ltac:(first
            [ refine (sends_only_weaken _ _ _ _ (ObjectID_sends_query _ _ _ _));
              let r := fresh "r" in
              let H := fresh "H" in
              intros r H; unfold uses_timeout; cbv beta; tauto
            | apply sends_only_send; unfold uses_timeout; cbv beta;
              solve [pick_case] ]).

Lemma PauseSnapshot_uses_timeout c objectName objectType tmo :
  sends_only
    (uses_timeout (snapshotTimeout tmo) (listQuery objectName "vmware" []))
    (PauseSnapshot c objectName objectType tmo).
Proof. unfold PauseSnapshot, isSnappableBlackoutActive. uses_timeout_walk. Qed.

Lemma ResumeSnapshot_uses_timeout c objectName objectType tmo :
  sends_only
    (uses_timeout (snapshotTimeout tmo) (listQuery objectName "vmware" []))
    (ResumeSnapshot c objectName objectType tmo).
Proof. unfold ResumeSnapshot, isSnappableBlackoutActive. uses_timeout_walk. Qed.

Lemma OnDemandSnapshotVM_uses_timeout c objectName objectType slaName tmo :
  sends_only
    (uses_timeout (snapshotTimeout tmo)
       (fun r =>
          listQuery objectName "vmware" [] r
          \/ (slaName = "current" /\ vmSummaryQuery r)
          \/ (slaName <> "current" /\ listQuery slaName "sla" [] r)))
    (OnDemandSnapshotVM c objectName objectType slaName tmo).
Proof.
  unfold OnDemandSnapshotVM, firstLinkHref, vmSummaryQuery.
  destruct (String.eqb_spec slaName "current") as [Hcur|Hcur]; cbv beta iota;
    uses_timeout_walk.
Qed.

Lemma OnDemandSnapshotPhysical_uses_timeout c hostName slaName fileset hostOS tmo :
  sends_only
    (uses_timeout (snapshotTimeout tmo)
       (fun r =>
          listQuery hostName "physicalHost" [] r
          \/ listQuery fileset "filesetTemplate" [hostOS] r
          \/ filesetQuery r
          \/ (slaName <> "current" /\ listQuery slaName "sla" [] r)))
    (OnDemandSnapshotPhysical c hostName slaName fileset hostOS tmo).
Proof.
  unfold OnDemandSnapshotPhysical, firstLinkHref, filesetQuery.
  destruct (String.eqb_spec slaName "current") as [Hcur|Hcur]; cbv beta iota;
    uses_timeout_walk.
Qed.

(** C8, as the code has it: in PauseSnapshot, ResumeSnapshot,
    OnDemandSnapshotVM and OnDemandSnapshotPhysical every transport call
    uses the value T, where T is the caller's t when the caller passes a t
    other than 15 and 180 when the caller passes nothing (or passes 15, which
    the operations cannot tell from the default).  The only calls sent
    without it are the list queries of ObjectID (for the object of the
    operation, and for the SLA when its name is not "current"), the VM
    summary GET of OnDemandSnapshotVM for "current" and the fileset query of
    OnDemandSnapshotPhysical.  So the summary GET and the PATCH of
    PauseSnapshot and ResumeSnapshot, and the snapshot POSTs, use T. *)
Theorem snapshot_operations_timeout c tmo T sent :
  CallerTimeout tmo T ->
  (forall objectName objectType,
      Forall (uses_timeout T (listQuery objectName "vmware" []))
        (issued (PauseSnapshot c objectName objectType tmo) sent))
  /\ (forall objectName objectType,
      Forall (uses_timeout T (listQuery objectName "vmware" []))
        (issued (ResumeSnapshot c objectName objectType tmo) sent))
  /\ (forall objectName objectType slaName,
      Forall
        (uses_timeout T
           (fun r =>
              listQuery objectName "vmware" [] r
              \/ (slaName = "current" /\ vmSummaryQuery r)
              \/ (slaName <> "current" /\ listQuery slaName "sla" [] r)))
        (issued (OnDemandSnapshotVM c objectName objectType slaName tmo) sent))
  /\ (forall hostName slaName fileset hostOS,
      Forall
        (uses_timeout T
           (fun r =>
              listQuery hostName "physicalHost" [] r
              \/ listQuery fileset "filesetTemplate" [hostOS] r
              \/ filesetQuery r
              \/ (slaName <> "current" /\ listQuery slaName "sla" [] r)))
        (issued (OnDemandSnapshotPhysical c hostName slaName fileset hostOS tmo)
           sent)).
Proof.
  intros H. apply snapshotTimeout_spec in H. subst T.
  repeat split; intros; apply sends_only_issued.
  - apply PauseSnapshot_uses_timeout.
  - apply ResumeSnapshot_uses_timeout.
  - apply OnDemandSnapshotVM_uses_timeout.
  - apply OnDemandSnapshotPhysical_uses_timeout.
Qed.

Lemma snapshot_operations_timeout_witness :
  Forall (uses_timeout 60 (listQuery "web01" "vmware" []))
    (issued (PauseSnapshot lab "web01" "vmware" [60%Z]) [])
  /\ map (fun r => (method r, apiEndpoint r, timeout r))
       (issued (PauseSnapshot lab "web01" "vmware" [60%Z]) [])
     = [(GET, "/vmware/vm?primary_cluster_id=local&is_relic=false&name=web01", []);
        (GET, "/vmware/vm/vm-1", [60%Z]);
        (PATCH, "/vmware/vm/vm-1", [60%Z])].
Proof.
  split.
  - apply (proj1 (snapshot_operations_timeout lab [60%Z] 60%Z []
                    (ExplicitTimeout 60%Z [] ltac:(discriminate)))).
  - vm_compute. reflexivity.
Defined.

(** A list query of a VM never has the endpoint of a VM summary, so the
    theorem leaves the summary GET of PauseSnapshot and ResumeSnapshot no way
    around the timeout. *)
Lemma vm_summary_is_not_a_list_query objectName vmID m version body tmo :
  ~ listQuery objectName "vmware" []
      (mkRequest m version ("/vmware/vm/" ++ vmID) body tmo).
Proof.
  intros [v [e [Hq Hr]]]. unfold objectSummaryAPI in Hq. simpl in Hq.
  inversion Hq; subst. inversion Hr.
Qed.

(** Every request that PauseSnapshot or ResumeSnapshot sends to the endpoint
    of a VM, the summary GET and the PATCH, carries the timeout. *)
Lemma PauseResume_vm_requests_timed c tmo T sent objectName objectType r vmID :
  CallerTimeout tmo T ->
  In r (issued (PauseSnapshot c objectName objectType tmo) sent)
  \/ In r (issued (ResumeSnapshot c objectName objectType tmo) sent) ->
  apiEndpoint r = "/vmware/vm/" ++ vmID ->
  timeout r = [T].
Proof.
  intros HT Hin Hep. apply snapshotTimeout_spec in HT. subst T.
  assert (Hu : uses_timeout (snapshotTimeout tmo) (listQuery objectName "vmware" []) r).
  { destruct Hin as [Hin|Hin].
    - pose proof (sends_only_issued _ _ sent
                    (PauseSnapshot_uses_timeout c objectName objectType tmo)) as HP.
      rewrite Forall_forall in HP. auto.
    - pose proof (sends_only_issued _ _ sent
                    (ResumeSnapshot_uses_timeout c objectName objectType tmo)) as HR.
      rewrite Forall_forall in HR. auto. }
  destruct Hu as [Hu|Hu]; [exact Hu|].
  exfalso. destruct r as [m v e b t]. cbn [apiEndpoint] in Hep. subst e.
  exact (vm_summary_is_not_a_list_query _ _ _ _ _ _ Hu).
Qed.

(** C8 as stated fails when the caller passes 15 explicitly: the summary GET
    and the PATCH of PauseSnapshot are sent with 180, and the lookup with no
    timeout. *)
Lemma explicit_timeout_15_is_replaced :
  map (fun r => (method r, timeout r))
    (issued (PauseSnapshot lab "web01" "vmware" [15%Z]) [])
  = [(GET, []); (GET, [180%Z]); (PATCH, [180%Z])]
  /\ ~ Forall (fun r => timeout r = [15%Z])
        (issued (PauseSnapshot lab "web01" "vmware" [15%Z]) []).
Proof.
  split; [vm_compute; reflexivity|].
  intros H. vm_compute in H. inversion H as [|r l Hr _]. discriminate Hr.
Qed.

(** * The rest of the package: proofs *)

(** ** The discipline of calls *)

Lemma sends_nothing {A : Type} (m : Go A) :
  sends_only (fun _ => False) m -> silent m.
Proof.
  intros H sent. destruct (H sent) as [more [E F]].
  destruct more as [|r more]; [rewrite app_nil_r in E; exact E|].
  inversion F as [|? ? Hr _]. contradiction.
Qed.

Lemma filter_mutating_none p r q :
  filter mutating (p ++ r :: q)%list = [] -> mutating r = false.
Proof.
  rewrite filter_app. simpl. destruct (mutating r); [|reflexivity].
  intros H. apply app_eq_nil in H. destruct H as [_ H]. discriminate H.
Qed.

(** Where a request of two runs in a row lies. *)
Lemma split_runs {A : Type} (l1 l2 p q : list A) (r : A) :
  (l1 ++ l2 = p ++ r :: q)%list ->
  (exists q1, l1 = (p ++ r :: q1)%list /\ q = (q1 ++ l2)%list)
  \/ (exists p2, p = (l1 ++ p2)%list /\ l2 = (p2 ++ r :: q)%list).
Proof.
  revert p. induction l1 as [|x l1 IH]; intros p H.
  - right. exists p. split; [reflexivity|exact H].
  - destruct p as [|y p]; simpl in H; inversion H; subst.
    + left. exists l1. split; reflexivity.
    + destruct (IH p H2) as [[q1 [E1 E2]]|[p2 [E1 E2]]].
      * left. exists q1. subst. split; reflexivity.
      * right. exists p2. subst. split; reflexivity.
Qed.

Lemma keeps_ret {A : Type} c strict proj (a : A) : keeps c strict proj (ret a).
Proof.
  intros sent. exists []. split; [simpl; rewrite app_nil_r; reflexivity|].
  intros p r q H. destruct p; discriminate H.
Qed.

Lemma keeps_throw {A : Type} c strict proj p : keeps c strict proj (@throw A p).
Proof.
  intros sent. exists []. split; [simpl; rewrite app_nil_r; reflexivity|].
  intros p' r q H. destruct p'; discriminate H.
Qed.

Lemma keeps_bind_pure {A B : Type} c strict proj (m : Go A) (k : A -> Go B) :
  silent m -> (forall a, keeps c strict proj (k a)) ->
  keeps c strict proj (bind m k).
Proof.
  intros Hm Hk sent. unfold bind. specialize (Hm sent).
  destruct (m sent) as [[a|p] sent']; simpl in Hm; subst sent'.
  - apply Hk.
  - exists []. split; [simpl; rewrite app_nil_r; reflexivity|].
    intros p' r q H. destruct p'; discriminate H.
Qed.

Lemma keeps_bind_lookup {X B : Type} c strict proj (m : Go (X * error))
  (k : X * error -> Go B) :
  looks_up c m ->
  (forall x e sent,
      snd (k (x, Some e) sent) = sent
      /\ proj (fst (k (x, Some e) sent)) = Some (Some e)) ->
  (forall x, keeps c strict proj (k (x, None))) ->
  keeps c strict proj (bind m k).
Proof.
  intros Hm Herr Hok sent. unfold bind.
  destruct (Hm sent) as [more1 [E1 [Hquiet Hfail]]].
  destruct (m sent) as [[[x [e|]]|pn] sent'] eqn:Em; simpl in E1, Hfail; subst sent'.
  - exists more1. destruct (Herr x e (sent ++ more1)%list) as [Hs Hp].
    split; [exact Hs|]. intros p r q H. split.
    + intros Hmut. subst more1. apply filter_mutating_none in Hquiet. congruence.
    + intros e' He'. destruct (Hfail p r q e' H He') as [Hq [x' Hx']].
      split; [exact Hq|]. intros _. inversion Hx'; subst. exact Hp.
  - destruct (Hok x (sent ++ more1)%list) as [more2 [E2 D2]].
    exists (more1 ++ more2)%list. cbv beta iota.
    split; [rewrite app_assoc; exact E2|].
    intros p r q H.
    destruct (split_runs _ _ _ _ _ H) as [[q1 [H1 H2]]|[p2 [H1 H2]]].
    + split.
      * intros Hmut. subst more1. apply filter_mutating_none in Hquiet. congruence.
      * intros e He. destruct (Hfail p r q1 e H1 He) as [_ [x' Hx']]. discriminate Hx'.
    + destruct (D2 p2 r q H2) as [Dm De]. subst p. split.
      * intros Hmut. destruct (Dm Hmut) as [Hq Hp2]. split; [exact Hq|].
        rewrite filter_app, Hquiet, Hp2. reflexivity.
      * intros e He. rewrite app_assoc in He. exact (De e He).
  - exists more1. split; [reflexivity|]. intros p r q H. split.
    + intros Hmut. subst more1. apply filter_mutating_none in Hquiet. congruence.
    + intros e He. destruct (Hfail p r q e H He) as [_ [x' Hx']]. discriminate Hx'.
Qed.

(** The mutating request of a method, followed by a continuation that sends
    nothing and, when [strict], returns the error of the request. *)
Lemma keeps_send_mutating {B : Type} c strict proj r (k : value * error -> Go B) :
  mutating r = true ->
  (forall a, silent (k a)) ->
  (strict = true -> forall x e sent, proj (fst (k (x, Some e) sent)) = Some (Some e)) ->
  keeps c strict proj (bind (send c r) k).
Proof.
  intros Hr Hs Hp sent. rewrite bind_send. exists [r]. split; [apply Hs|].
  intros p r' q H.
  destruct p as [|y p]; [|destruct p; discriminate H].
  inversion H; subst. rewrite app_nil_r. split; [split; reflexivity|].
  intros e He. split; [reflexivity|]. intros Hstrict.
  destruct (remote c sent r') as [x err]. simpl in He. subst err.
  destruct strict.
  - apply Hp. reflexivity.
  - rewrite Hr in Hstrict. discriminate Hstrict.
Qed.

Lemma looks_up_ret {X : Type} c (a : X * error) : looks_up c (ret a).
Proof.
  intros sent. exists []. split; [simpl; rewrite app_nil_r; reflexivity|].
  split; [reflexivity|]. intros p r q e H. destruct p; discriminate H.
Qed.

(** One GET, read by a continuation that sends nothing and hands an error
    of the GET on. *)
Lemma looks_up_bind_send {X : Type} c r (k : value * error -> Go (X * error)) :
  mutating r = false ->
  (forall a, silent (k a)) ->
  (forall x e sent, exists y, fst (k (x, Some e) sent) = Returned (y, Some e)) ->
  looks_up c (bind (send c r) k).
Proof.
  intros Hr Hs Hk sent. rewrite bind_send. exists [r].
  split; [apply Hs|]. split; [simpl; rewrite Hr; reflexivity|].
  intros p r' q e H He.
  destruct p as [|y p]; [|destruct p; discriminate H].
  inversion H; subst. rewrite app_nil_r in He. split; [reflexivity|].
  destruct (remote c sent r') as [x err]. simpl in He. subst err. apply Hk.
Qed.

Lemma looks_up_send c r : mutating r = false -> looks_up c (send c r).
Proof.
  intros Hr sent. exists [r]. split; [reflexivity|].
  split; [simpl; rewrite Hr; reflexivity|].
  intros p r' q e H He.
  destruct p as [|y p]; [|destruct p; discriminate H].
  inversion H; subst. rewrite app_nil_r in He. split; [reflexivity|].
  simpl. destruct (remote c sent r') as [x err]. simpl in He. subst err.
  exists x. reflexivity.
Qed.

Lemma looks_up_ObjectID c objectName objectType hostOS :
  looks_up c (ObjectID c objectName objectType hostOS).
Proof.
  unfold ObjectID, Get.
  destruct (Bool.eqb _ false); [apply looks_up_ret|].
  destruct (objectSummaryAPI objectName objectType hostOS) as [e|[version endpoint]];
    [apply looks_up_ret|].
  apply looks_up_bind_send.
  - reflexivity.
  - intros a. apply sends_nothing. sends_walk. apply collectIDs_sends.
  - intros x e sent. eexists. reflexivity.
Qed.

Lemma silent_isSnappableBlackoutActive vmSummary :
  silent (isSnappableBlackoutActive vmSummary).
Proof. apply sends_nothing. unfold isSnappableBlackoutActive. sends_walk. Qed.

Lemma collectNameIDs_sends P data :
  forall vmNameID, sends_only P (collectNameIDs data vmNameID).
Proof.
  induction data as [|v data IH]; intros vmNameID; cbn [collectNameIDs].
  - apply sends_only_ret.
  - sends_walk; apply IH.
Qed.

(** Walks through a method body for [keeps]: lookups, the steps that send
    nothing, the mutating request and the branches. *)
Ltac silent_step :=
  apply sends_nothing;
  sends_walk_using
    ltac:(first [ apply collectIDs_sends | apply collectNameIDs_sends ]).

Ltac keeps_walk :=
  repeat first
    [ progress intros
    | progress cbv beta iota zeta
    | apply keeps_ret
    | apply keeps_throw
    | match goal with
      | |- keeps _ _ _ (bind (ObjectID _ _ _ _) _) =>
          apply keeps_bind_lookup;
          [ apply looks_up_ObjectID | intros; split; reflexivity | ]
      | |- keeps _ _ _ (bind (send _ (mkRequest GET _ _ _ _)) _) =>
          apply keeps_bind_lookup;
          [ apply looks_up_send; reflexivity | intros; split; reflexivity | ]
      | |- keeps _ _ _ (bind (send _ (mkRequest _ _ _ _ _)) _) =>
          apply keeps_send_mutating;
          [ reflexivity
          | intros; silent_step
          | first [ discriminate | intros; reflexivity ] ]
      | |- keeps _ _ _ (bind _ _) =>
          apply keeps_bind_pure; [ solve [silent_step] | ]
      | |- keeps _ _ _ (match ?x with _ => _ end) => destruct x
      | |- keeps _ _ _ (if ?b then _ else _) => destruct b
      end ].

Lemma ObjectID_keeps c strict objectName objectType hostOS :
  keeps c strict errorOf (ObjectID c objectName objectType hostOS).
Proof.
  intros sent.
  destruct (looks_up_ObjectID c objectName objectType hostOS sent)
    as [more [E [Hquiet Hfail]]].
  exists more. split; [exact E|]. intros p r q H. split.
  - intros Hmut. subst more. apply filter_mutating_none in Hquiet. congruence.
  - intros e He. destruct (Hfail p r q e H He) as [Hq [x Hx]].
    split; [exact Hq|]. intros _. unfold result. rewrite Hx. reflexivity.
Qed.

Lemma AssignSLA_keeps c objectName objectType slaName tmo :
  keeps c true errorOf (AssignSLA c objectName objectType slaName tmo).
Proof. unfold AssignSLA, Get, Post. keeps_walk. Qed.

Lemma Begin_keeps c name tmo :
  keeps c true errorOf (BeginManagedVolumeSnapshot c name tmo).
Proof. unfold BeginManagedVolumeSnapshot, Get, Post. keeps_walk. Qed.

Lemma End_keeps c name slaName tmo :
  keeps c false errorOf (EndManagedVolumeSnapshot c name slaName tmo).
Proof. unfold EndManagedVolumeSnapshot, Get, Post. keeps_walk. Qed.

Lemma GetSLAObjects_keeps c slaName objectType tmo :
  keeps c true errorOfHashed (GetSLAObjects c slaName objectType tmo).
Proof. unfold GetSLAObjects, Get. keeps_walk. Qed.

Lemma Pause_keeps c objectName objectType tmo :
  keeps c true errorOf (PauseSnapshot c objectName objectType tmo).
Proof. unfold PauseSnapshot, isSnappableBlackoutActive, Get, Patch. keeps_walk. Qed.

Lemma Resume_keeps c objectName objectType tmo :
  keeps c true errorOf (ResumeSnapshot c objectName objectType tmo).
Proof. unfold ResumeSnapshot, isSnappableBlackoutActive, Get, Patch. keeps_walk. Qed.

Lemma OnDemandSnapshotVM_keeps c objectName objectType slaName tmo :
  keeps c true errorOf (OnDemandSnapshotVM c objectName objectType slaName tmo).
Proof. unfold OnDemandSnapshotVM, firstLinkHref, Get, Post. keeps_walk. Qed.

Lemma OnDemandSnapshotPhysical_keeps c hostName slaName fileset hostOS tmo :
  keeps c true errorOf
    (OnDemandSnapshotPhysical c hostName slaName fileset hostOS tmo).
Proof. unfold OnDemandSnapshotPhysical, firstLinkHref, Get, Post. keeps_walk. Qed.

Lemma call_disciplined c call sent :
  disciplined c (checksMutation call) sent (returnedError c call sent)
    (sentBy c call sent).
Proof.
  destruct call; unfold sentBy, returnedError, issued, trace, result, checksMutation.
  - destruct (ObjectID_keeps c true objectName objectType hostOS sent) as [more [E D]].
    rewrite E, skipn_app_exact. exact D.
  - destruct (AssignSLA_keeps c objectName objectType slaName tmo sent) as [more [E D]].
    rewrite E, skipn_app_exact. exact D.
  - destruct (Begin_keeps c name tmo sent) as [more [E D]].
    rewrite E, skipn_app_exact. exact D.
  - destruct (End_keeps c name slaName tmo sent) as [more [E D]].
    rewrite E, skipn_app_exact. exact D.
  - destruct (GetSLAObjects_keeps c slaName objectType tmo sent) as [more [E D]].
    rewrite E, skipn_app_exact. exact D.
  - destruct (Pause_keeps c objectName objectType tmo sent) as [more [E D]].
    rewrite E, skipn_app_exact. exact D.
  - destruct (Resume_keeps c objectName objectType tmo sent) as [more [E D]].
    rewrite E, skipn_app_exact. exact D.
  - destruct (OnDemandSnapshotVM_keeps c objectName objectType slaName tmo sent)
      as [more [E D]].
    rewrite E, skipn_app_exact. exact D.
  - destruct (OnDemandSnapshotPhysical_keeps c hostName slaName fileset hostOS tmo sent)
      as [more [E D]].
    rewrite E, skipn_app_exact. exact D.
Qed.

(** X1: whatever the cluster answers, a call of any exported method of
    data_management.go sends at most one mutating request (POST or PATCH),
    and that request is the last request of the call. *)
Theorem calls_mutate_once_and_last c call sent p r q :
  sentBy c call sent = (p ++ r :: q)%list ->
  mutating r = true ->
  q = [] /\ filter mutating p = [].
Proof.
  intros H Hr. exact (proj1 (call_disciplined c call sent p r q H) Hr).
Qed.

Lemma calls_mutate_once_and_last_witness :
  sentBy lab (CallPauseSnapshot "web01" "vmware" []) []
  = [mkRequest GET "v1"
       "/vmware/vm?primary_cluster_id=local&is_relic=false&name=web01" VNil [];
     mkRequest GET "v1" "/vmware/vm/vm-1" VNil [180%Z];
     mkRequest PATCH "v1" "/vmware/vm/vm-1" (VMap [("isVmPaused", VBool true)])
       [180%Z]]
  /\ (@nil Request = []
      /\ filter mutating
           [mkRequest GET "v1"
              "/vmware/vm?primary_cluster_id=local&is_relic=false&name=web01" VNil [];
            mkRequest GET "v1" "/vmware/vm/vm-1" VNil [180%Z]] = []).
Proof.
  split; [reflexivity|].
  apply (calls_mutate_once_and_last lab (CallPauseSnapshot "web01" "vmware" []) []
           [mkRequest GET "v1"
              "/vmware/vm?primary_cluster_id=local&is_relic=false&name=web01" VNil [];
            mkRequest GET "v1" "/vmware/vm/vm-1" VNil [180%Z]]
           (mkRequest PATCH "v1" "/vmware/vm/vm-1" (VMap [("isVmPaused", VBool true)])
              [180%Z])
           []); reflexivity.
Defined.

(** X2: a call sends nothing after a request that the cluster answered with
    an error: in particular no mutating request follows a failed lookup. *)
Theorem calls_stop_at_first_error c call sent p r q e :
  sentBy c call sent = (p ++ r :: q)%list ->
  snd (remote c (sent ++ p)%list r) = Some e ->
  q = [].
Proof.
  intros H He. exact (proj1 (proj2 (call_disciplined c call sent p r q H) e He)).
Qed.

Lemma calls_stop_at_first_error_witness :
  sentBy lab (CallOnDemandSnapshotVM "web01" "vmware" "Bronze" []) []
  = [mkRequest GET "v1"
       "/vmware/vm?primary_cluster_id=local&is_relic=false&name=web01" VNil [];
     mkRequest GET "v1" "/sla_domain?primary_cluster_id=local&name=Bronze" VNil []]
  /\ @nil Request = [].
Proof.
  split; [reflexivity|].
  apply (calls_stop_at_first_error lab
           (CallOnDemandSnapshotVM "web01" "vmware" "Bronze" []) []
           [mkRequest GET "v1"
              "/vmware/vm?primary_cluster_id=local&is_relic=false&name=web01" VNil []]
           (mkRequest GET "v1" "/sla_domain?primary_cluster_id=local&name=Bronze" VNil [])
           [] "404 Not Found"); reflexivity.
Defined.

(** X3: an error the cluster answers to a request of a call is the error
    the call returns, unchanged.  This holds for every lookup (GET) of every
    method and for the mutating request of every method except
    EndManagedVolumeSnapshot. *)
Theorem calls_return_transport_error c call sent p r q e :
  sentBy c call sent = (p ++ r :: q)%list ->
  snd (remote c (sent ++ p)%list r) = Some e ->
  checksMutation call = true \/ mutating r = false ->
  returnedError c call sent = Some (Some e).
Proof.
  intros H He Hc.
  apply (proj2 (proj2 (call_disciplined c call sent p r q H) e He)).
  destruct Hc as [Hc|Hc]; rewrite Hc; [reflexivity|apply orb_true_r].
Qed.

Lemma calls_return_transport_error_witness :
  returnedError lab (CallEndManagedVolumeSnapshot "oracle" "Bronze" []) []
  = Some (Some "404 Not Found").
Proof.
  apply (calls_return_transport_error lab
           (CallEndManagedVolumeSnapshot "oracle" "Bronze" []) []
           [mkRequest GET "internal"
              "/managed_volume?is_relic=false&primary_cluster_id=local&name=oracle"
              VNil [];
            mkRequest GET "internal" "/managed_volume/mv-9" VNil [15%Z]]
           (mkRequest GET "v1" "/sla_domain?primary_cluster_id=local&name=Bronze" VNil [])
           [] "404 Not Found").
  - reflexivity.
  - reflexivity.
  - right. reflexivity.
Defined.

(** ** Usage errors of the operations *)

Lemma not_vmware objectType :
  objectType <> "vmware" -> lookup_bool validObjectTypeVM objectType = false.
Proof.
  intros H. unfold validObjectTypeVM, lookup_bool.
  destruct (String.eqb_spec "vmware" objectType); [congruence|reflexivity].
Qed.

Lemma not_a_host_os hostOS :
  hostOS <> "Linux" -> hostOS <> "Windows" -> lookup_bool validHostOs hostOS = false.
Proof.
  intros HL HW. unfold validHostOs, lookup_bool.
  destruct (String.eqb_spec "Linux" hostOS); [congruence|].
  destruct (String.eqb_spec "Windows" hostOS); [congruence|reflexivity].
Qed.

(** X4: AssignSLA, GetSLAObjects, PauseSnapshot, ResumeSnapshot and
    OnDemandSnapshotVM called with an objectType other than "vmware", and
    OnDemandSnapshotPhysical called with a hostOS that is neither "Linux" nor
    "Windows", return their usage error and send nothing to the cluster. *)
Theorem calls_reject_unsupported c call msg sent :
  Unsupported call msg ->
  returnedError c call sent = Some (Some msg) /\ sentBy c call sent = [].
Proof.
  intros H.
  assert (Hnil : forall l : list Request, skipn (length l) l = []).
  { intros l. rewrite <- (app_nil_r l) at 2. apply skipn_app_exact. }
  destruct H as [n ty sla tmo Hty | sla ty tmo Hty | n ty tmo Hty | n ty tmo Hty
                | n ty sla tmo Hty | h sla f os tmo HL HW];
    unfold returnedError, sentBy, issued, trace, result;
    [ unfold AssignSLA | unfold GetSLAObjects | unfold PauseSnapshot
    | unfold ResumeSnapshot | unfold OnDemandSnapshotVM
    | unfold OnDemandSnapshotPhysical ];
    try rewrite (not_vmware _ Hty); try rewrite (not_a_host_os _ HL HW);
    cbn [Bool.eqb ret fst snd errorOf errorOfHashed];
    (split; [reflexivity|apply Hnil]).
Qed.

Lemma calls_reject_unsupported_witness :
  returnedError lab (CallOnDemandSnapshotPhysical "db01" "Gold" "etc" "linux" [])
    [] = Some (Some msgHostOSPhysical)
  /\ sentBy lab (CallOnDemandSnapshotPhysical "db01" "Gold" "etc" "linux" []) [] = [].
Proof.
  apply (calls_reject_unsupported lab
           (CallOnDemandSnapshotPhysical "db01" "Gold" "etc" "linux" [])
           msgHostOSPhysical []).
  apply UnsupportedHostOS; discriminate.
Defined.

(** ** ObjectID on any answer *)

Lemma collectIDs_returned nameValue objectName data :
  forall objectIDs sent ids sent',
    collectIDs nameValue objectName data objectIDs sent = (Returned ids, sent') ->
    exists found,
      ids = (objectIDs ++ found)%list
      /\ Forall2 (fun v id => fieldOf "id" v = Some id)
           (filter (named nameValue objectName) data) found.
Proof.
  induction data as [|v data IH]; intros objectIDs sent ids sent' H.
  - inversion H; subst. exists []. rewrite app_nil_r. split; [reflexivity|constructor].
  - cbn [collectIDs] in H.
    destruct v as [| | | | | |entry]; try discriminate H.
    unfold bind at 1, as_map at 1, ret at 1 in H.
    destruct (index entry nameValue) as [| | | |name| |] eqn:Hname; try discriminate H.
    unfold bind at 1, as_string at 1, ret at 1 in H.
    assert (Hn : named nameValue objectName (VMap entry) = String.eqb name objectName)
      by (unfold named, fieldOf; rewrite Hname; reflexivity).
    cbn [filter]. rewrite Hn.
    destruct (String.eqb name objectName).
    + unfold bind at 1, as_map at 1, ret at 1 in H.
      destruct (index entry "id") as [| | | |id| |] eqn:Hid; try discriminate H.
      unfold bind at 1, as_string at 1, ret at 1 in H.
      destruct (IH _ _ _ _ H) as [found [E F]].
      exists (id :: found). split.
      * rewrite E, <- app_assoc. reflexivity.
      * constructor; [|exact F]. unfold fieldOf. rewrite Hid. reflexivity.
    + apply (IH _ _ _ _ H).
Qed.

(** X5: whatever the cluster answers, when ObjectID returns an identifier
    and no error, the answer to its list query contains exactly one entry
    whose name field (hostname for physicalHost, name otherwise) equals
    objectName, and the identifier returned is the id of that entry. *)
Theorem ObjectID_sound c objectName objectType hostOS sent id :
  result (ObjectID c objectName objectType hostOS) sent = Returned (id, None) ->
  exists version endpoint answer data v,
    objectSummaryAPI objectName objectType hostOS = inr (version, endpoint)
    /\ remote c sent (mkRequest GET version endpoint VNil []) = (VMap answer, None)
    /\ index answer "data" = VSlice data
    /\ filter (named (nameField objectType) objectName) data = [v]
    /\ fieldOf "id" v = Some id.
Proof.
  unfold result, ObjectID. intros H.
  destruct (Bool.eqb _ false); [discriminate H|].
  destruct (objectSummaryAPI objectName objectType hostOS) as [e|[version endpoint]];
    [discriminate H|].
  unfold Get in H. rewrite bind_send in H.
  destruct (remote c sent _) as [apiRequest [e|]] eqn:Hget; [discriminate H|].
  destruct apiRequest as [| | | | | |answer]; try discriminate H.
  unfold bind at 1, as_map at 1, ret at 1 in H.
  destruct (iface_eq_int _ 0); [discriminate H|].
  destruct (index answer "total") as [| | |total| | |]; try discriminate H.
  unfold bind at 1, as_float64 at 1, ret at 1 in H.
  destruct (PrimFloat.ltb 0 total); [|discriminate H].
  destruct (index answer "data") as [| | | | |data|] eqn:Hdata; try discriminate H.
  unfold bind at 1, as_slice at 1, ret at 1 in H.
  unfold bind at 1 in H. fold (nameField objectType) in H.
  destruct (collectIDs (nameField objectType) objectName data [] _)
    as [[ids|pn] sent'] eqn:Hloop; [|discriminate H].
  destruct (collectIDs_returned _ _ _ _ _ _ _ Hloop) as [found [E F]].
  simpl in E. subst found.
  destruct ids as [|id1 [|id2 ids]]; try discriminate H.
  inversion H; subst id1.
  inversion F as [|v id' hits ids' Hv Hrest Ehits]; subst.
  inversion Hrest; subst.
  exists version, endpoint, answer, data, v. repeat split; auto.
Qed.

Lemma ObjectID_sound_witness :
  exists version endpoint answer data v,
    objectSummaryAPI "db01" "physicalHost" [] = inr (version, endpoint)
    /\ remote lab [] (mkRequest GET version endpoint VNil []) = (VMap answer, None)
    /\ index answer "data" = VSlice data
    /\ filter (named (nameField "physicalHost") "db01") data = [v]
    /\ fieldOf "id" v = Some "host-4".
Proof.
  apply (ObjectID_sound lab "db01" "physicalHost" [] [] "host-4"). reflexivity.
Defined.

(** X6: when the answer to the list query reports no result, i.e. its total
    is the int 0 or a float64 that is not greater than 0, ObjectID returns
    the not-found error without reading the data of the answer. *)
Theorem ObjectID_no_results c objectName objectType hostOS sent version endpoint
  answer :
  In objectType objectTypes ->
  objectSummaryAPI objectName objectType hostOS = inr (version, endpoint) ->
  remote c sent (mkRequest GET version endpoint VNil []) = (VMap answer, None) ->
  index answer "total" = VInt 0
  \/ (exists total, index answer "total" = VFloat64 total
                    /\ PrimFloat.ltb 0 total = false) ->
  result (ObjectID c objectName objectType hostOS) sent
  = Returned ("", Some (msgNotFound objectType objectName)).
Proof.
  intros Hty Hq Hget Htotal. apply validObjectType_spec in Hty.
  unfold result, ObjectID. rewrite Hty, Hq. cbn [Bool.eqb].
  unfold Get. rewrite bind_send, Hget.
  unfold bind at 1, as_map at 1, ret at 1.
  destruct Htotal as [H0 | [total [Ht Hneg]]].
  - rewrite H0. reflexivity.
  - rewrite Ht. cbn [iface_eq_int].
    unfold bind at 1, as_float64 at 1, ret at 1. rewrite Hneg. reflexivity.
Qed.

Lemma ObjectID_no_results_witness :
  result
    (ObjectID
       (stub [(GET, "/sla_domain?primary_cluster_id=local&name=Gold",
               (VMap [("total", VFloat64 0); ("data", VString "unread")], None))])
       "Gold" "sla" []) []
  = Returned ("", Some (msgNotFound "sla" "Gold")).
Proof.
  apply (ObjectID_no_results _ "Gold" "sla" [] [] "v1"
           "/sla_domain?primary_cluster_id=local&name=Gold"
           [("total", VFloat64 0); ("data", VString "unread")]).
  - unfold objectTypes. simpl. tauto.
  - reflexivity.
  - reflexivity.
  - right. exists 0%float. split; reflexivity.
Defined.

(** X13: when the transport reports no error but the answer to the list
    query is not an object, or has a total that is neither the int 0 nor a
    float64 (a missing total included), or has a positive total and no slice
    under "data", ObjectID does not return: it panics on the failed type
    assertion. *)
Theorem ObjectID_malformed_answer_panics c objectName objectType hostOS sent version
  endpoint body :
  In objectType objectTypes ->
  objectSummaryAPI objectName objectType hostOS = inr (version, endpoint) ->
  remote c sent (mkRequest GET version endpoint VNil []) = (body, None) ->
  MalformedAnswer body ->
  result (ObjectID c objectName objectType hostOS) sent = Panicked InterfaceConversion.
Proof.
  intros Hty Hq Hget Hbad. apply validObjectType_spec in Hty.
  unfold result, ObjectID. rewrite Hty, Hq. cbn [Bool.eqb].
  unfold Get. rewrite bind_send, Hget.
  destruct Hbad as [body Hbody | answer H0 Hf | answer total Ht Hpos Hdata].
  - destruct body; try reflexivity. exfalso. apply (Hbody m). reflexivity.
  - unfold bind at 1, as_map at 1, ret at 1.
    destruct (index answer "total") as [| |n|total| | |]; try reflexivity.
    + cbn [iface_eq_int]. destruct (Z.eqb_spec n 0); [subst; congruence|reflexivity].
    + exfalso. apply (Hf total). reflexivity.
  - unfold bind at 1, as_map at 1, ret at 1. rewrite Ht. cbn [iface_eq_int].
    unfold bind at 1, as_float64 at 1, ret at 1. rewrite Hpos.
    destruct (index answer "data"); try reflexivity.
    exfalso. apply (Hdata l). reflexivity.
Qed.

Lemma ObjectID_malformed_answer_panics_witness :
  result
    (ObjectID
       (stub [(GET, "/vmware/host?primary_cluster_id=local",
               (VMap [("data", VSlice [entry "name" "esx01" "host-1"])], None))])
       "esx01" "vmwareHost" []) []
  = Panicked InterfaceConversion.
Proof.
  apply (ObjectID_malformed_answer_panics _ "esx01" "vmwareHost" [] [] "v1"
           "/vmware/host?primary_cluster_id=local"
           (VMap [("data", VSlice [entry "name" "esx01" "host-1"])])).
  - unfold objectTypes. simpl. tauto.
  - reflexivity.
  - reflexivity.
  - apply NoTotal; [discriminate|intros total; discriminate].
Defined.

(** ** GetSLAObjects *)

Lemma assign_string_keys m n v :
  string_keys m -> string_keys (assign m (VString n) v).
Proof.
  induction 1 as [|[k old] m [s Hs] Hm IH]; simpl.
  - repeat constructor. exists n. reflexivity.
  - destruct (key_eqb k (VString n)).
    + constructor; [exists n; reflexivity|exact Hm].
    + constructor; [exists s; exact Hs|exact IH].
Qed.

Lemma bound_assign m n v n' :
  string_keys m ->
  bound (assign m (VString n) v) (VString n')
  = if String.eqb n n' then Some v else bound m (VString n').
Proof.
  induction 1 as [|[k old] m [s Hs] _ IH]; simpl in *.
  - reflexivity.
  - subst k. simpl.
    destruct (String.eqb_spec s n) as [E|E].
    + subst s. simpl. destruct (String.eqb n n'); reflexivity.
    + simpl. rewrite IH.
      destruct (String.eqb_spec s n') as [E1|E1]; [|reflexivity].
      destruct (String.eqb_spec n n') as [E2|E2]; [congruence|reflexivity].
Qed.

Lemma collectNameIDs_named data :
  Forall (fun v => fieldOf "name" v <> None) data ->
  forall vmNameID sent, string_keys vmNameID ->
    exists m,
      collectNameIDs data vmNameID sent = (Returned (Hashed m), sent)
      /\ forall n, bound m (VString n)
                   = match lastNamed data n with
                     | Some id => Some id
                     | None => bound vmNameID (VString n)
                     end.
Proof.
  induction 1 as [|v data Hv _ IH]; intros vmNameID sent Hkeys.
  - exists vmNameID. split; reflexivity.
  - unfold fieldOf in Hv.
    destruct v as [| | | | | |fields]; try congruence.
    destruct (index fields "name") as [| | | |name| |] eqn:Hname; try congruence.
    cbn [collectNameIDs]. unfold bind at 1, as_map at 1, ret at 1.
    unfold bind at 1, as_map at 1, ret at 1. rewrite Hname. cbn [hashable].
    destruct (IH (assign vmNameID (VString name) (index fields "id")) sent
                (assign_string_keys _ _ _ Hkeys)) as [m [Hrun Hm]].
    exists m. split; [exact Hrun|].
    intros n. rewrite Hm. cbn [lastNamed]. rewrite Hname.
    destruct (lastNamed data n); [reflexivity|].
    rewrite (bound_assign _ _ _ _ Hkeys).
    destruct (String.eqb name n); reflexivity.
Qed.

(** X7: when the SLA is resolved and the list of its VMs has a total other
    than 0, GetSLAObjects returns a map from VM name to VM id in which every
    name is bound to the id of the last entry of the list that carries it; a
    name carried by no entry is unbound.  (Entries are objects with a string
    name.) *)
Theorem GetSLAObjects_last_name_wins c slaName tmo sent sent1 slaID answer total data :
  ObjectID c slaName "sla" [] sent = (Returned (slaID, None), sent1) ->
  remote c sent1
    (mkRequest GET "v1"
       ("/vmware/vm?effective_sla_domain_id=" ++ slaID ++ "&is_relic=false") VNil
       [httpTimeout tmo]) = (VMap answer, None) ->
  index answer "total" = VFloat64 total ->
  PrimFloat.eqb total 0 = false ->
  index answer "data" = VSlice data ->
  Forall (fun v => fieldOf "name" v <> None) data ->
  exists m,
    result (GetSLAObjects c slaName "vmware" tmo) sent
    = Returned (Hashed (NameIDMap m, None))
    /\ forall name, bound m (VString name) = lastNamed data name.
Proof.
  intros Hid Hget Htotal Hnz Hdata Hnames.
  destruct (collectNameIDs_named data Hnames []
              (sent1 ++ [mkRequest GET "v1"
                           ("/vmware/vm?effective_sla_domain_id=" ++ slaID
                              ++ "&is_relic=false") VNil [httpTimeout tmo]])%list
              (Forall_nil _)) as [m [Hrun Hm]].
  exists m. split.
  - unfold result, GetSLAObjects. rewrite vmware_supported. cbn [Bool.eqb].
    rewrite String.eqb_refl.
    rewrite (bind_returned _ _ _ _ _ Hid).
    unfold Get. rewrite bind_send, Hget.
    unfold bind at 1, as_map at 1, ret at 1. rewrite Htotal.
    unfold bind at 1, as_float64 at 1, ret at 1. rewrite Hnz.
    unfold bind at 1, as_map at 1, ret at 1. rewrite Hdata.
    unfold bind at 1, as_slice at 1, ret at 1.
    rewrite (bind_returned _ _ _ _ _ Hrun). reflexivity.
  - intros name. rewrite Hm. destruct (lastNamed data name); reflexivity.
Qed.

Lemma GetSLAObjects_last_name_wins_witness :
  exists m,
    result (GetSLAObjects slaLab "Gold" "vmware" []) []
    = Returned (Hashed (NameIDMap m, None))
    /\ forall name, bound m (VString name) = lastNamed goldVMs name.
Proof.
  apply (GetSLAObjects_last_name_wins slaLab "Gold" [] []
           [mkRequest GET "v1" "/sla_domain?primary_cluster_id=local&name=Gold" VNil []]
           "sla-gold"
           [("hasMore", VBool false); ("data", VSlice goldVMs); ("total", VFloat64 3)]
           3 goldVMs); try reflexivity.
  repeat constructor; discriminate.
Defined.

(** X8: when the SLA is resolved and the list of its VMs has total 0,
    GetSLAObjects returns the message that the SLA protects no object of
    the type, with a nil error, and does not read the data of the list. *)
Theorem GetSLAObjects_not_protecting c slaName tmo sent sent1 slaID answer total :
  ObjectID c slaName "sla" [] sent = (Returned (slaID, None), sent1) ->
  remote c sent1
    (mkRequest GET "v1"
       ("/vmware/vm?effective_sla_domain_id=" ++ slaID ++ "&is_relic=false") VNil
       [httpTimeout tmo]) = (VMap answer, None) ->
  index answer "total" = VFloat64 total ->
  PrimFloat.eqb total 0 = true ->
  result (GetSLAObjects c slaName "vmware" tmo) sent
  = Returned (Hashed (Plain (VString (msgNotProtecting slaName "vmware")), None)).
Proof.
  intros Hid Hget Htotal Hz.
  unfold result, GetSLAObjects. rewrite vmware_supported. cbn [Bool.eqb].
  rewrite String.eqb_refl.
  rewrite (bind_returned _ _ _ _ _ Hid).
  unfold Get. rewrite bind_send, Hget.
  unfold bind at 1, as_map at 1, ret at 1. rewrite Htotal.
  unfold bind at 1, as_float64 at 1, ret at 1. rewrite Hz. reflexivity.
Qed.

Lemma GetSLAObjects_not_protecting_witness :
  result (GetSLAObjects slaLab "Idle" "vmware" []) []
  = Returned
      (Hashed
         (Plain (VString "The SLA 'Idle' is currently not protecting any vmware objects."),
          None)).
Proof.
  apply (GetSLAObjects_not_protecting slaLab "Idle" [] []
           [mkRequest GET "v1" "/sla_domain?primary_cluster_id=local&name=Idle" VNil []]
           "sla-idle"
           [("hasMore", VBool false); ("data", VSlice []); ("total", VFloat64 0)]
           0); reflexivity.
Defined.

(** ** OnDemandSnapshotPhysical on an assigned fileset *)

(** X9: when host and fileset template are resolved and the fileset query
    answers at least one entry (with a total that is not the int 0, as every
    decoded total is), OnDemandSnapshotPhysical snapshots the first entry of
    the answer: it posts to /fileset/{id}/snapshot of that entry, with slaId
    the entry's own effectiveSlaDomainId for "current" and the identifier the
    SLA lookup resolves otherwise, and returns the href of the first link of
    the answer to the POST. *)
Theorem OnDemandSnapshotPhysical_first_fileset c hostName slaName fileset hostOS tmo
  sent sent1 sent2 sent3 hostID filesetTemplateID summary fields rest filesetID slaID
  answer link links href :
  hostOS = "Linux" \/ hostOS = "Windows" ->
  ObjectID c hostName "physicalHost" [] sent = (Returned (hostID, None), sent1) ->
  ObjectID c fileset "filesetTemplate" [hostOS] sent1
  = (Returned (filesetTemplateID, None), sent2) ->
  remote c sent2
    (mkRequest GET "v1"
       ("/fileset?primary_cluster_id=local&host_id=" ++ hostID
          ++ "&is_relic=false&template_id=" ++ filesetTemplateID) VNil [])
  = (VMap summary, None) ->
  iface_eq_int (index summary "total") 0 = false ->
  index summary "data" = VSlice (VMap fields :: rest) ->
  index fields "id" = VString filesetID ->
  SnapshotSLA c slaName fields
    (sent2 ++ [mkRequest GET "v1"
                 ("/fileset?primary_cluster_id=local&host_id=" ++ hostID
                    ++ "&is_relic=false&template_id=" ++ filesetTemplateID)
                 VNil []])%list slaID sent3 ->
  remote c sent3
    (mkRequest POST "v1" ("/fileset/" ++ filesetID ++ "/snapshot")
       (VMap [("slaId", VString slaID)]) [snapshotTimeout tmo])
  = (VMap answer, None) ->
  index answer "links" = VSlice (VMap link :: links) ->
  index link "href" = VString href ->
  OnDemandSnapshotPhysical c hostName slaName fileset hostOS tmo sent
  = (Returned (href, None),
     (sent3 ++ [mkRequest POST "v1" ("/fileset/" ++ filesetID ++ "/snapshot")
                  (VMap [("slaId", VString slaID)]) [snapshotTimeout tmo]])%list).
Proof.
  intros Hos Hhost Htmpl Hget Htotal Hdata Hfid Hsla Hpost Hlinks Hhref.
  assert (Hvalid : lookup_bool validHostOs hostOS = true)
    by (destruct Hos; subst; reflexivity).
  unfold OnDemandSnapshotPhysical. rewrite Hvalid. cbn [Bool.eqb].
  rewrite (bind_returned _ _ _ _ _ Hhost).
  rewrite (bind_returned _ _ _ _ _ Htmpl).
  unfold Get. rewrite bind_send, Hget.
  unfold bind at 1, as_map at 1, ret at 1. rewrite Htotal, Hdata.
  unfold bind at 1, as_slice at 1, ret at 1.
  unfold bind at 1, first at 1, ret at 1.
  unfold bind at 1, as_map at 1, ret at 1. rewrite Hfid.
  unfold bind at 1, as_string at 1, ret at 1.
  inversion Hsla as [slaID' Hcur Heff | slaID' sent3' Hcur Hlook]; subst.
  - rewrite String.eqb_refl. rewrite Heff.
    unfold bind at 1, as_string at 1, ret at 1.
    unfold Post. rewrite bind_send, Hpost.
    rewrite (bind_returned _ _ _ _ _
               (firstLinkHref_reads _ link links href _ Hlinks Hhref)).
    reflexivity.
  - rewrite (string_eqb_false _ _ Hcur).
    rewrite (bind_returned _ _ _ _ _ Hlook).
    unfold Post. rewrite bind_send, Hpost.
    rewrite (bind_returned _ _ _ _ _
               (firstLinkHref_reads _ link links href _ Hlinks Hhref)).
    reflexivity.
Qed.

Lemma OnDemandSnapshotPhysical_first_fileset_witness :
  OnDemandSnapshotPhysical filesetLab "db01" "current" "etc" "Linux" [] []
  = (Returned ("https://lab/api/v1/fileset/request/CREATE_FILESET_SNAPSHOT_1", None),
     [mkRequest GET "v1" "/host?primary_cluster_id=local&hostname=db01" VNil [];
      mkRequest GET "v1"
        "/fileset_template?primary_cluster_id=local&operating_system_type=Linux&name=etc"
        VNil [];
      mkRequest GET "v1"
        "/fileset?primary_cluster_id=local&host_id=host-4&is_relic=false&template_id=tmpl-3"
        VNil [];
      mkRequest POST "v1" "/fileset/fs-1/snapshot"
        (VMap [("slaId", VString "sla-silver")]) [180%Z]]).
Proof.
  refine (OnDemandSnapshotPhysical_first_fileset filesetLab "db01" "current" "etc"
            "Linux" [] []
            [mkRequest GET "v1" "/host?primary_cluster_id=local&hostname=db01" VNil []]
            [mkRequest GET "v1" "/host?primary_cluster_id=local&hostname=db01" VNil [];
             mkRequest GET "v1"
               "/fileset_template?primary_cluster_id=local&operating_system_type=Linux&name=etc"
               VNil []]
            [mkRequest GET "v1" "/host?primary_cluster_id=local&hostname=db01" VNil [];
             mkRequest GET "v1"
               "/fileset_template?primary_cluster_id=local&operating_system_type=Linux&name=etc"
               VNil [];
             mkRequest GET "v1"
               "/fileset?primary_cluster_id=local&host_id=host-4&is_relic=false&template_id=tmpl-3"
               VNil []]
            "host-4" "tmpl-3"
            [("hasMore", VBool false);
             ("data",
              VSlice
                [VMap [("id", VString "fs-1");
                       ("effectiveSlaDomainId", VString "sla-silver")];
                 VMap [("id", VString "fs-2");
                       ("effectiveSlaDomainId", VString "sla-gold")]]);
             ("total", VFloat64 2)]
            [("id", VString "fs-1"); ("effectiveSlaDomainId", VString "sla-silver")]
            [VMap [("id", VString "fs-2"); ("effectiveSlaDomainId", VString "sla-gold")]]
            "fs-1" "sla-silver"
            [("id", VString "CREATE_SNAPSHOT_1");
             ("status", VString "QUEUED");
             ("links",
              VSlice
                [VMap [("href",
                        VString
                          "https://lab/api/v1/fileset/request/CREATE_FILESET_SNAPSHOT_1");
                       ("rel", VString "self")]])]
            [("href",
              VString "https://lab/api/v1/fileset/request/CREATE_FILESET_SNAPSHOT_1");
             ("rel", VString "self")]
            [] _ _ _ _ _ _ _ _ _ _ _ _);
    try reflexivity.
  - left. reflexivity.
  - apply CurrentSLA; reflexivity.
Defined.

(** ** The sentinel names of AssignSLA and the "current" SLA of a VM *)

Lemma AssignSLA_sentinel_guarded_witness :
  guarded_transition lab (AssignSLA lab "web02" "vmware" "clear" []) []
    true (msgAlreadyAssigned "web02" "clear")
    (mkRequest POST "internal" "/sla_domain/INHERIT/assign"
       (VMap [("managedIds", VSlice [VString "vm-2"])]) [15%Z])
  /\ guarded_transition lab (AssignSLA lab "web02" "vmware" "do not protect" []) []
       false (msgAlreadyAssigned "web02" "do not protect")
       (mkRequest POST "internal" "/sla_domain/UNPROTECTED/assign"
          (VMap [("managedIds", VSlice [VString "vm-2"])]) [15%Z]).
Proof.
  split.
  - refine (AssignSLA_sentinel_guarded lab "web02" "clear" "INHERIT" [] []
              [mkRequest GET "v1"
                 "/vmware/vm?primary_cluster_id=local&is_relic=false&name=web02" VNil []]
              "vm-2"
              [("id", VString "vm-2");
               ("effectiveSlaDomainId", VString "sla-silver");
               ("configuredSlaDomainId", VString "INHERIT");
               ("blackoutWindowStatus",
                VMap [("isGlobalBlackoutActive", VBool false);
                      ("isSnappableBlackoutActive", VBool true)])]
              "INHERIT" _ _ _ _); try reflexivity.
    right. split; reflexivity.
  - refine (AssignSLA_sentinel_guarded lab "web02" "do not protect" "UNPROTECTED" [] []
              [mkRequest GET "v1"
                 "/vmware/vm?primary_cluster_id=local&is_relic=false&name=web02" VNil []]
              "vm-2"
              [("id", VString "vm-2");
               ("effectiveSlaDomainId", VString "sla-silver");
               ("configuredSlaDomainId", VString "INHERIT");
               ("blackoutWindowStatus",
                VMap [("isGlobalBlackoutActive", VBool false);
                      ("isSnappableBlackoutActive", VBool true)])]
              "sla-silver" _ _ _ _); try reflexivity.
    left. split; reflexivity.
Defined.

Lemma OnDemandSnapshotVM_current_witness :
  OnDemandSnapshotVM lab "web01" "vmware" "current" [] []
  = (Returned ("https://lab/api/v1/vmware/vm/request/CREATE_SNAPSHOT_1", None),
     [mkRequest GET "v1"
        "/vmware/vm?primary_cluster_id=local&is_relic=false&name=web01" VNil [];
      mkRequest GET "v1" "/vmware/vm/vm-1" VNil [];
      mkRequest POST "v1" "/vmware/vm/vm-1/snapshot"
        (VMap [("slaId", VString "sla-gold")]) [180%Z]]).
Proof.
  refine (OnDemandSnapshotVM_current lab "web01" [] []
            [mkRequest GET "v1"
               "/vmware/vm?primary_cluster_id=local&is_relic=false&name=web01" VNil []]
            "vm-1"
            [("id", VString "vm-1");
             ("effectiveSlaDomainId", VString "sla-gold");
             ("configuredSlaDomainId", VString "sla-gold");
             ("blackoutWindowStatus",
              VMap [("isGlobalBlackoutActive", VBool false);
                    ("isSnappableBlackoutActive", VBool false)])]
            "sla-gold"
            [("id", VString "CREATE_SNAPSHOT_1");
             ("status", VString "QUEUED");
             ("links",
              VSlice
                [VMap [("href",
                        VString "https://lab/api/v1/vmware/vm/request/CREATE_SNAPSHOT_1");
                       ("rel", VString "self")]])]
            [("href", VString "https://lab/api/v1/vmware/vm/request/CREATE_SNAPSHOT_1");
             ("rel", VString "self")]
            [] "https://lab/api/v1/vmware/vm/request/CREATE_SNAPSHOT_1"
            _ _ _ _ _ _); reflexivity.
Defined.

(** ** The timeout of the other operations *)

Lemma httpTimeout_spec tmo T : PassedTimeout tmo T -> httpTimeout tmo = T.
Proof. intros H. destruct H; reflexivity. Qed.

Ltac management_timeout_walk :=
  unfold Get, Post, Patch;
  sends_walk_using
    ltac:(first [ apply ObjectID_carries
                | apply collectNameIDs_sends
                | apply send_carries; solve [auto] ]).

(** X10: AssignSLA, BeginManagedVolumeSnapshot, EndManagedVolumeSnapshot and
    GetSLAObjects do not lengthen the default timeout: every mutating
    request they send, and every other request they give a timeout, carries
    the first timeout value the caller passed (15 included), or 15 when the
    caller passed none; lookups may be sent without a timeout. *)
Theorem management_operations_timeout c tmo T sent :
  PassedTimeout tmo T ->
  (forall objectName objectType slaName,
      Forall (carries T) (issued (AssignSLA c objectName objectType slaName tmo) sent))
  /\ (forall name,
      Forall (carries T) (issued (BeginManagedVolumeSnapshot c name tmo) sent))
  /\ (forall name slaName,
      Forall (carries T) (issued (EndManagedVolumeSnapshot c name slaName tmo) sent))
  /\ (forall slaName objectType,
      Forall (carries T) (issued (GetSLAObjects c slaName objectType tmo) sent)).
Proof.
  intros H. apply httpTimeout_spec in H. subst T.
  repeat split; intros; apply sends_only_issued.
  - unfold AssignSLA. management_timeout_walk.
  - unfold BeginManagedVolumeSnapshot. management_timeout_walk.
  - unfold EndManagedVolumeSnapshot. management_timeout_walk.
  - unfold GetSLAObjects. management_timeout_walk.
Qed.

Lemma management_operations_timeout_witness :
  Forall (carries 15) (issued (EndManagedVolumeSnapshot lab "oracle" "current" [15%Z]) [])
  /\ map (fun r => (method r, timeout r))
       (issued (EndManagedVolumeSnapshot lab "oracle" "current" [15%Z]) [])
     = [(GET, []); (GET, [15%Z]); (POST, [15%Z])].
Proof.
  split.
  - apply (proj1 (proj2 (proj2
             (management_operations_timeout lab [15%Z] 15%Z []
                (GivenTimeout 15%Z []))))).
  - vm_compute. reflexivity.
Defined.

(** ** The object a call mutates *)

Lemma issued_ret {A : Type} (a : A) sent : issued (ret a) sent = [].
Proof.
  unfold issued, trace, ret. simpl.
  rewrite <- (app_nil_r sent) at 2. apply skipn_app_exact.
Qed.

(** A method that resolves an object first: a mutating request it sends
    comes after a successful resolution and satisfies what the rest of the
    method guarantees for the resolved identifier. *)
Lemma resolved_then {B : Type} c name ty (k : string * error -> Go B)
  (P : string -> Request -> Prop) sent r :
  (forall id, sends_only (fun r => mutating r = true -> P id r) (k (id, None))) ->
  (forall x e, sends_only (fun r => mutating r = false) (k (x, Some e))) ->
  In r (issued (bind (ObjectID c name ty []) k) sent) ->
  mutating r = true ->
  exists id, result (ObjectID c name ty []) sent = Returned (id, None) /\ P id r.
Proof.
  intros Hok Herr Hin Hr. unfold issued, trace, bind, result in *.
  unfold error in *.
  destruct (ObjectID_sends_lookups c name ty [] sent) as [more1 [E1 F1]].
  assert (Hquiet : forall r', In r' more1 -> mutating r' = false).
  { intros r' Hr'. rewrite Forall_forall in F1. destruct (F1 r' Hr') as [Hg _].
    unfold mutating. rewrite Hg. reflexivity. }
  destruct (ObjectID c name ty [] sent) as [[[id [e|]]|pn] sent1];
    simpl in E1; subst sent1; cbv beta iota in Hin; unfold error in Hin.
  - destruct (Herr id e (sent ++ more1)%list) as [more2 [E2 F2]].
    rewrite E2, <- app_assoc, skipn_app_exact in Hin.
    apply in_app_or in Hin. destruct Hin as [Hin|Hin].
    + rewrite (Hquiet r Hin) in Hr. discriminate Hr.
    + rewrite Forall_forall in F2. rewrite (F2 r Hin) in Hr. discriminate Hr.
  - destruct (Hok id (sent ++ more1)%list) as [more2 [E2 F2]].
    rewrite E2, <- app_assoc, skipn_app_exact in Hin.
    apply in_app_or in Hin. destruct Hin as [Hin|Hin].
    + rewrite (Hquiet r Hin) in Hr. discriminate Hr.
    + exists id. split; [reflexivity|].
      rewrite Forall_forall in F2. exact (F2 r Hin Hr).
  - simpl in Hin. rewrite skipn_app_exact in Hin.
    rewrite (Hquiet r Hin) in Hr. discriminate Hr.
Qed.

Ltac route_walk c :=
  unfold Get, Post, Patch;
  sends_walk_using
    ltac:(first
            [ apply (sends_only_weaken lookup_request);
              [ let r := fresh "r" in
                let Hg := fresh "Hg" in
                let Hm := fresh "Hm" in
                intros r [Hg _]; try intros Hm; unfold mutating in *;
                rewrite Hg in *; first [ reflexivity | discriminate Hm ]
              | apply ObjectID_sends_lookups ]
            | apply sends_only_send;
              first [ reflexivity
                    | let Hm := fresh "Hm" in
                      intros Hm; first [ reflexivity | discriminate Hm ] ] ]).

(** X11: whatever the cluster answers, a mutating request sent by
    BeginManagedVolumeSnapshot, EndManagedVolumeSnapshot, PauseSnapshot,
    ResumeSnapshot or OnDemandSnapshotVM goes to the endpoint of the object
    whose identifier ObjectID resolved for the name the caller gave. *)
Theorem calls_mutate_resolved_object c call sent name ty r :
  objectOf call = Some (name, ty) ->
  In r (sentBy c call sent) ->
  mutating r = true ->
  exists id,
    result (ObjectID c name ty []) sent = Returned (id, None)
    /\ route r = mutationRoute call id.
Proof.
  intros Hobj Hin Hr.
  destruct call; simpl in Hobj; try discriminate Hobj;
    inversion Hobj; subst; clear Hobj; unfold sentBy in Hin; cbn [mutationRoute].
  - unfold BeginManagedVolumeSnapshot in Hin.
    refine (resolved_then c name "managedVolume" _
              (fun id r => route r = (POST, "/managed_volume/" ++ id ++ "/begin_snapshot"))
              sent r _ _ Hin Hr); intros; route_walk c.
  - unfold EndManagedVolumeSnapshot in Hin.
    refine (resolved_then c name "managedVolume" _
              (fun id r => route r = (POST, "/managed_volume/" ++ id ++ "/end_snapshot"))
              sent r _ _ Hin Hr); intros; route_walk c.
  - unfold PauseSnapshot in Hin.
    destruct (Bool.eqb _ false); [rewrite issued_ret in Hin; contradiction|].
    destruct (String.eqb objectType "vmware");
      [|rewrite issued_ret in Hin; contradiction].
    refine (resolved_then c name "vmware" _
              (fun id r => route r = (PATCH, "/vmware/vm/" ++ id))
              sent r _ _ Hin Hr); intros; unfold isSnappableBlackoutActive; route_walk c.
  - unfold ResumeSnapshot in Hin.
    destruct (Bool.eqb _ false); [rewrite issued_ret in Hin; contradiction|].
    destruct (String.eqb objectType "vmware");
      [|rewrite issued_ret in Hin; contradiction].
    refine (resolved_then c name "vmware" _
              (fun id r => route r = (PATCH, "/vmware/vm/" ++ id))
              sent r _ _ Hin Hr); intros; unfold isSnappableBlackoutActive; route_walk c.
  - unfold OnDemandSnapshotVM in Hin.
    destruct (Bool.eqb _ false); [rewrite issued_ret in Hin; contradiction|].
    destruct (String.eqb objectType "vmware");
      [|rewrite issued_ret in Hin; contradiction].
    refine (resolved_then c name "vmware" _
              (fun id r => route r = (POST, "/vmware/vm/" ++ id ++ "/snapshot"))
              sent r _ _ Hin Hr); intros; unfold firstLinkHref; route_walk c.
Qed.

Lemma calls_mutate_resolved_object_witness :
  exists id,
    result (ObjectID lab "web02" "vmware" []) [] = Returned (id, None)
    /\ route (mkRequest PATCH "v1" "/vmware/vm/vm-2"
                (VMap [("isVmPaused", VBool false)]) [60%Z])
       = mutationRoute (CallResumeSnapshot "web02" "vmware" [60%Z]) id.
Proof.
  apply (calls_mutate_resolved_object lab (CallResumeSnapshot "web02" "vmware" [60%Z])
           [] "web02" "vmware").
  - reflexivity.
  - vm_compute. right. right. left. reflexivity.
  - reflexivity.
Defined.

(** ** cluster.go *)

Lemma appendNodeIPs_returned data :
  forall nodeList sent ips,
    appendNodeIPs data nodeList sent = (Returned ips, sent)
    <-> exists more,
          ips = (nodeList ++ more)%list
          /\ map (fieldOf "ipAddress") data = map Some more.
Proof.
  induction data as [|v data IH]; intros nodeList sent ips; cbn [appendNodeIPs map].
  - split.
    + intros H. inversion H. exists []. rewrite app_nil_r. split; reflexivity.
    + intros [more [E Hm]]. destruct more; [|discriminate Hm].
      rewrite app_nil_r in E. subst. reflexivity.
  - destruct v as [| | | | | |node];
      try (split; [intros H; discriminate H
                  |intros [more [_ Hm]]; destruct more; discriminate Hm]).
    unfold bind at 1, as_map at 1, ret at 1. unfold fieldOf at 1.
    destruct (index node "ipAddress") as [| | | |ip| |];
      try (split; [intros H; discriminate H
                  |intros [more [_ Hm]]; destruct more; discriminate Hm]).
    unfold bind at 1, as_string at 1, ret at 1.
    rewrite IH. split.
    + intros [more [E Hm]]. exists (ip :: more). split.
      * rewrite E, <- app_assoc. reflexivity.
      * simpl. rewrite Hm. reflexivity.
    + intros [more [E Hm]]. destruct more as [|ip' more]; [discriminate Hm|].
      inversion Hm; subst. exists more. split; [|assumption].
      rewrite <- app_assoc. reflexivity.
Qed.

Lemma appendNodeIPs_silent data :
  forall nodeList, silent (appendNodeIPs data nodeList).
Proof.
  induction data as [|v data IH]; intros nodeList; cbn [appendNodeIPs].
  - intros sent. reflexivity.
  - apply sends_nothing. sends_walk. intros sent. exists [].
    rewrite app_nil_r. split; [apply IH|constructor].
Qed.

(** X12: ClusterNodeIP returns a list exactly when the answer of the
    transport holds a slice under "data" whose every entry is an object with
    a string ipAddress, and the list is then those addresses, one per node
    and in the order of the answer; otherwise it panics.  It sends nothing
    beyond the one query of the transport. *)
Theorem ClusterNodeIP_addresses get sent apiRequest sent' ips :
  get "internal" "/cluster/me/node" sent = (Returned apiRequest, sent') ->
  trace (ClusterNodeIP get) sent = sent'
  /\ (result (ClusterNodeIP get) sent = Returned ips
      <-> exists data,
            index apiRequest "data" = VSlice data
            /\ map (fieldOf "ipAddress") data = map Some ips).
Proof.
  intros Hget. unfold trace, result, ClusterNodeIP.
  rewrite (bind_returned _ _ _ _ _ Hget).
  destruct (index apiRequest "data") as [| | | | |data|];
    try (split; [reflexivity|];
         split; [intros H; discriminate H|intros [data [H _]]; discriminate H]).
  unfold bind at 1 2, as_slice, ret.
  pose proof (appendNodeIPs_silent data [] sent') as Hs.
  pose proof (appendNodeIPs_returned data [] sent' ips) as Hr.
  destruct (appendNodeIPs data [] sent') as [o s]. simpl in Hs. subst s.
  split; [reflexivity|]. simpl. split.
  - intros H. subst o. destruct (proj1 Hr eq_refl) as [more [E Hm]].
    simpl in E. subst more. exists data. split; [reflexivity|exact Hm].
  - intros [data' [E Hm]]. inversion E; subst data'.
    assert (H : (o, sent') = (Returned ips, sent'))
      by (apply Hr; exists ips; split; [reflexivity|exact Hm]).
    inversion H. reflexivity.
Qed.

Lemma ClusterNodeIP_addresses_witness :
  result
    (ClusterNodeIP
       (fixedGet
          [("total", VFloat64 2);
           ("data",
            VSlice [VMap [("id", VString "RVM1"); ("ipAddress", VString "10.0.0.11")];
                    VMap [("id", VString "RVM2"); ("ipAddress", VString "10.0.0.12")]])]))
    []
  = Returned ["10.0.0.11"; "10.0.0.12"].
Proof.
  apply (proj2 (proj2
           (ClusterNodeIP_addresses
              (fixedGet
                 [("total", VFloat64 2);
                  ("data",
                   VSlice
                     [VMap [("id", VString "RVM1"); ("ipAddress", VString "10.0.0.11")];
                      VMap [("id", VString "RVM2"); ("ipAddress", VString "10.0.0.12")]])])
              []
              [("total", VFloat64 2);
               ("data",
                VSlice
                  [VMap [("id", VString "RVM1"); ("ipAddress", VString "10.0.0.11")];
                   VMap [("id", VString "RVM2"); ("ipAddress", VString "10.0.0.12")]])]
              [] ["10.0.0.11"; "10.0.0.12"] eq_refl))).
  eexists. split; reflexivity.
Defined.
